(** * AquaNova development server: a model of [server.py] and its contract

    [server.py] is a launcher around Python's [http.server]: a request
    handler [GameHTTPRequestHandler] that adds CORS headers and overrides
    three MIME types, a [GameServer] object with [start] and [stop], a
    SIGINT handler and the command-line parsing of the [__main__] block.

    The first part of this file embeds the program: the functions of
    [server.py] line by line, and the functions of the Python standard
    library that they inherit or call (CPython 3.11, POSIX), each in a
    module named after its origin.  What the operating system decides
    (the file system, free ports, what a spawned command does, when a
    signal arrives) is a field of a record that every definition takes
    as an argument.  The second part states and proves the properties. *)

From Stdlib Require Import String Ascii List ZArith Bool Lia PeanoNat.
From Stdlib Require Import DecimalString.
Import ListNotations.
Local Open Scope list_scope.
Local Open Scope string_scope.

(* ================================================================== *)
(** * Part I: the program                                              *)
(* ================================================================== *)

(** [l.append(x)] on a Python list. *)
Definition append {A : Type} (l : list A) (x : A) : list A := (l ++ [x])%list.

(** ** Python [str] operations

    A [str] is modelled by the string of its characters; every operation
    below inspects ASCII characters only. *)
Module Str.

(** [s.startswith(p)] *)
Definition startswith (s p : string) : bool := String.prefix p s.

(** [s.endswith(suf)]: some tail of [s] is [suf]. *)
Fixpoint endswith (s suf : string) : bool :=
  String.eqb s suf ||
  match s with
  | EmptyString => false
  | String _ t => endswith t suf
  end.

(** [sub in s] *)
Fixpoint contains (sub s : string) : bool :=
  String.prefix sub s ||
  match s with
  | EmptyString => false
  | String _ t => contains sub t
  end.

(** [s.split(sep)] for a one-character separator: never empty,
    [''.split('/') = ['']]. *)
Fixpoint split (sep : ascii) (s : string) : list string :=
  match s with
  | EmptyString => [EmptyString]
  | String c t =>
      if Ascii.eqb c sep then EmptyString :: split sep t
      else match split sep t with
           | w :: ws => String c w :: ws
           | [] => [String c EmptyString]
           end
  end.

(** [s.split(sep, 1)[0]]: the part before the first [sep]. *)
Fixpoint before (sep : ascii) (s : string) : string :=
  match s with
  | EmptyString => EmptyString
  | String c t => if Ascii.eqb c sep then EmptyString else String c (before sep t)
  end.

(** [sep.join(ws)] *)
Definition join (sep : string) (ws : list string) : string :=
  String.concat sep ws.

(** [str.isspace] on one character of the Latin-1 range, in which a
    request line is decoded. *)
Definition isspace (c : ascii) : bool :=
  let n := nat_of_ascii c in
  (((9 <=? n) && (n <=? 13)) || ((28 <=? n) && (n <=? 32))
  || (n =? 133) || (n =? 160))%nat.

(** [s.rstrip()] *)
Fixpoint rstrip (s : string) : string :=
  match s with
  | EmptyString => EmptyString
  | String c t =>
      match rstrip t with
      | EmptyString => if isspace c then EmptyString else String c EmptyString
      | t' => String c t'
      end
  end.

(** [bool(s)]: the empty string is falsy. *)
Definition truthy (s : string) : bool := negb (String.eqb s EmptyString).

(** [str(n)] for an integer. *)
Definition of_Z (n : Z) : string := NilZero.string_of_int (Z.to_int n).

(** [s.rfind(c)] as a position, [None] for Python's [-1]. *)
Fixpoint rfind (c : ascii) (s : string) : option nat :=
  match s with
  | EmptyString => None
  | String d t =>
      match rfind c t with
      | Some i => Some (S i)
      | None => if Ascii.eqb d c then Some 0 else None
      end
  end.

(** [s[i:]] *)
Fixpoint drop (i : nat) (s : string) : string :=
  match i, s with
  | O, _ => s
  | S j, String _ t => drop j t
  | S _, EmptyString => EmptyString
  end.

(** [s[:i]] *)
Fixpoint take (i : nat) (s : string) : string :=
  match i, s with
  | O, _ => EmptyString
  | S j, String c t => String c (take j t)
  | S _, EmptyString => EmptyString
  end.

Definition CRLF : string := String "013" (String "010" EmptyString).

End Str.

(** ** [posixpath] *)
Module Posixpath.

(** [posixpath.join(a, b)] *)
Definition join (a b : string) : string :=
  if Str.startswith b "/" then b
  else if negb (Str.truthy a) || Str.endswith a "/" then a ++ b
  else a ++ "/" ++ b.

(** [os.path.dirname(word)]: everything up to the last slash.  Only its
    truth value is used by [translate_path]; it is non-empty exactly
    when [word] contains a slash. *)
Definition dirname_truthy (word : string) : bool := Str.contains "/" word.

(** The loop of [posixpath.normpath] over the components. *)
Fixpoint normpath_comps (initial_slashes : nat) (comps new_comps : list string)
  : list string :=
  match comps with
  | [] => new_comps
  | comp :: rest =>
      if String.eqb comp "" || String.eqb comp "." then
        normpath_comps initial_slashes rest new_comps
      else if negb (String.eqb comp "..")
              || ((initial_slashes =? 0)%nat && (List.length new_comps =? 0)%nat)
              || (match rev new_comps with
                  | last :: _ => String.eqb last ".."
                  | [] => false
                  end)
      then normpath_comps initial_slashes rest (append new_comps comp)
      else normpath_comps initial_slashes rest (removelast new_comps)
  end.

(** [posixpath.normpath(path)] *)
Definition normpath (path : string) : string :=
  if String.eqb path "" then "."
  else
    let initial_slashes :=
      if Str.startswith path "/" then
        if Str.startswith path "//" && negb (Str.startswith path "///")
        then 2 else 1
      else 0 in
    let comps := normpath_comps initial_slashes (Str.split "/" path) [] in
    let p := Str.join "/" comps in
    let p := match initial_slashes with
             | 0 => p
             | 1 => "/" ++ p
             | _ => "//" ++ p
             end in
    if Str.truthy p then p else ".".

(** [genericpath._splitext(p, '/', None, '.')]: is there a character
    other than a dot in [p[filenameIndex:dotIndex]]? *)
Fixpoint has_non_dot (s : string) : bool :=
  match s with
  | EmptyString => false
  | String c t => negb (Ascii.eqb c ".") || has_non_dot t
  end.

(** [posixpath.splitext(p)] *)
Definition splitext (p : string) : string * string :=
  let filenameIndex :=
    match Str.rfind "/" p with Some i => S i | None => 0 end in
  match Str.rfind "." p with
  | Some dotIndex =>
      if (filenameIndex <=? dotIndex)%nat
         && has_non_dot (Str.take (dotIndex - filenameIndex) (Str.drop filenameIndex p))
      then (Str.take dotIndex p, Str.drop dotIndex p)
      else (p, "")
  | None => (p, "")
  end.

End Posixpath.

(** ** Exceptions and the outcomes of a call *)

Inductive exn :=
| ValueError
| OSError
| OverflowError
| AttributeError
| KeyboardInterrupt
| SystemExit (code : Z).

(** A call returns a value, raises, or never returns ([serve_forever]
    with nothing to stop it, [shutdown] with no loop to answer). *)
Inductive result (A : Type) :=
| Returned (a : A)
| Raised (e : exn)
| Blocked.
Arguments Returned {A} a.
Arguments Raised {A} e.
Arguments Blocked {A}.

(** ** What the handler takes from the platform

    The file system, [urllib], [mimetypes] and the texts the base handler
    puts in a response, as [http.server] reads them.  Nothing is assumed
    about these fields. *)
Record host := {
  (** [os.path.isdir], [os.path.isfile] *)
  isdir : string -> bool;
  isfile : string -> bool;
  (** [open(path, 'rb')] and the bytes then read from the file: the call
      returns, raises ([OSError] when the file is missing or unreadable,
      [ValueError] for a path with a null character, ...) or does not
      return (a FIFO nobody writes to). *)
  open_rb : string -> result string;
  (** [os.listdir(path)], with the same outcomes. *)
  listdir : string -> result (list string);
  (** the page [list_directory] builds from the directory, [self.path]
      and the entries *)
  render_listing : string -> string -> list string -> string;
  (** [sys.getfilesystemencoding()] *)
  filesystem_encoding : string;
  (** [self.date_time_string(fs.st_mtime)] of the open file *)
  last_modified : string -> string;
  (** the outcome of the [If-Modified-Since] comparison of [send_head]
      for the request headers and the open file *)
  not_modified : list (string * string) -> string -> bool;
  (** [urllib.parse.unquote] on a string that has a percent sign *)
  unquote_escapes : string -> string;
  (** [urllib.parse.urlsplit(p).path] and the redirect target that
      [send_head] builds with [urlunsplit] *)
  urlsplit_path : string -> string;
  redirect_url : string -> string;
  (** [self.extensions_map], [str.lower], [mimetypes.guess_type(p)[0]] *)
  extensions_map : string -> option string;
  str_lower : string -> string;
  mimetypes_guess_type : string -> option string;
  (** [self.version_string()], [self.date_time_string()],
      [self.responses[code][0]] ([None] when the code is not in the
      table) and the encoded error page for a code and a message *)
  version_string : string;
  date_time_string : string;
  responses : Z -> option string;
  error_body : Z -> string -> string
}.

(** ** The state of one request handler

    The request as [parse_request] left it, the header buffer, what has
    been written to the socket, the codes given to [log_request], and
    the paths given to [open] and [os.listdir]. *)
Record handler := {
  request_version : string;
  command : string;
  path : string;
  headers : list (string * string);
  directory : string;
  headers_buffer : list string;
  wfile : list string;
  request_log : list Z;
  fs_reads : list string
}.

Definition set_headers_buffer (h : handler) (b : list string) : handler :=
  {| request_version := request_version h; command := command h;
     path := path h; headers := headers h; directory := directory h;
     headers_buffer := b; wfile := wfile h;
     request_log := request_log h; fs_reads := fs_reads h |}.

(** [self.wfile.write(data)]: one write of [data] on the socket, taken to
    succeed (a client that has closed the connection has no counterpart
    here). *)
Definition wfile_write (h : handler) (data : string) : handler :=
  {| request_version := request_version h; command := command h;
     path := path h; headers := headers h; directory := directory h;
     headers_buffer := headers_buffer h; wfile := append (wfile h) data;
     request_log := request_log h; fs_reads := fs_reads h |}.

Definition log_code (h : handler) (code : Z) : handler :=
  {| request_version := request_version h; command := command h;
     path := path h; headers := headers h; directory := directory h;
     headers_buffer := headers_buffer h; wfile := wfile h;
     request_log := append (request_log h) code; fs_reads := fs_reads h |}.

Definition read_path (h : handler) (p : string) : handler :=
  {| request_version := request_version h; command := command h;
     path := path h; headers := headers h; directory := directory h;
     headers_buffer := headers_buffer h; wfile := wfile h;
     request_log := request_log h; fs_reads := append (fs_reads h) p |}.

(** The methods a subclass may override and that the base class calls
    through [self]. *)
Record methods := {
  self_end_headers : handler -> handler;
  self_guess_type : string -> string
}.

(** ** [http.server.BaseHTTPRequestHandler] *)
Module BaseHTTPRequestHandler.

Definition protocol_version : string := "HTTP/1.0".
Definition default_request_version : string := "HTTP/0.9".
Definition error_content_type : string := "text/html;charset=utf-8".

Definition is_http09 (h : handler) : bool :=
  String.eqb (request_version h) "HTTP/0.9".

(** [send_response_only(code, message)] *)
Definition send_response_only (H : host) (h : handler) (code : Z)
           (message : option string) : handler :=
  if negb (is_http09 h) then
    let message := match message with
                   | Some m => m
                   | None => match responses H code with
                             | Some short => short
                             | None => ""
                             end
                   end in
    set_headers_buffer h
      (append (headers_buffer h)
         (protocol_version ++ " " ++ Str.of_Z code ++ " " ++ message ++ Str.CRLF))
  else h.

(** [send_header(keyword, value)]: the header buffer.  (The method also
    updates [close_connection], which no response byte depends on.) *)
Definition send_header (h : handler) (keyword value : string) : handler :=
  if negb (is_http09 h) then
    set_headers_buffer h
      (append (headers_buffer h) (keyword ++ ": " ++ value ++ Str.CRLF))
  else h.

(** [flush_headers()] *)
Definition flush_headers (h : handler) : handler :=
  set_headers_buffer (wfile_write h (Str.join "" (headers_buffer h))) [].

(** [end_headers()] *)
Definition end_headers (h : handler) : handler :=
  if negb (is_http09 h) then
    flush_headers
      (set_headers_buffer h (append (headers_buffer h) Str.CRLF))
  else h.

(** [send_response(code, message)] *)
Definition send_response (H : host) (h : handler) (code : Z)
           (message : option string) : handler :=
  let h := log_code h code in
  let h := send_response_only H h code message in
  let h := send_header h "Server" (version_string H) in
  send_header h "Date" (date_time_string H).

(** [send_error(code, message)] *)
Definition send_error (H : host) (self : methods) (h : handler) (code : Z)
           (message : option string) : handler :=
  let message := match message with
                 | Some m => m
                 | None => match responses H code with
                           | Some short => short
                           | None => "???"
                           end
                 end in
  let h := send_response H h code (Some message) in
  let h := send_header h "Connection" "close" in
  let has_body :=
    (200 <=? code)%Z
    && negb ((code =? 204)%Z || (code =? 205)%Z || (code =? 304)%Z) in
  let body := if has_body then error_body H code message else "" in
  let h := if has_body then
             let h := send_header h "Content-Type" error_content_type in
             send_header h "Content-Length"
               (Str.of_Z (Z.of_nat (String.length body)))
           else h in
  let h := self_end_headers self h in
  if negb (String.eqb (command h) "HEAD") && Str.truthy body
  then wfile_write h body
  else h.

End BaseHTTPRequestHandler.

(** ** [http.server.SimpleHTTPRequestHandler] *)
Module SimpleHTTPRequestHandler.
Import BaseHTTPRequestHandler.

(** [urllib.parse.unquote(s)] *)
Definition unquote (H : host) (s : string) : string :=
  if negb (Str.contains "%" s) then s else unquote_escapes H s.

(** One turn of the loop of [translate_path] over the words. *)
Definition add_word (p word : string) : string :=
  if Posixpath.dirname_truthy word
     || String.eqb word "." || String.eqb word ".."
  then p
  else Posixpath.join p word.

(** [translate_path(path)] *)
Definition translate_path (H : host) (h : handler) (path : string) : string :=
  let path := Str.before "?" path in
  let path := Str.before "#" path in
  let trailing_slash := Str.endswith (Str.rstrip path) "/" in
  let path := unquote H path in
  let path := Posixpath.normpath path in
  let words := Str.split "/" path in
  let words := filter Str.truthy words in
  let path := fold_left add_word words (directory h) in
  if trailing_slash then path ++ "/" else path.

(** [guess_type(path)] *)
Definition guess_type (H : host) (path : string) : string :=
  let ext := snd (Posixpath.splitext path) in
  match extensions_map H ext with
  | Some t => t
  | None =>
      let ext := str_lower H ext in
      match extensions_map H ext with
      | Some t => t
      | None =>
          match mimetypes_guess_type H path with
          | Some guess =>
              if Str.truthy guess then guess else "application/octet-stream"
          | None => "application/octet-stream"
          end
      end
  end.

(** [list_directory(path)] *)
Definition list_directory (H : host) (self : methods) (h : handler)
           (dir_path : string) : result (option string) * handler :=
  let h := read_path h dir_path in
  match listdir H dir_path with
  | Raised OSError =>
      (Returned None,
       send_error H self h 404 (Some "No permission to list directory"))
  | Raised e => (Raised e, h)
  | Blocked => (Blocked, h)
  | Returned entries =>
      let encoded := render_listing H dir_path (path h) entries in
      let h := send_response H h 200 None in
      let h := send_header h "Content-type"
                 ("text/html; charset=" ++ filesystem_encoding H) in
      let h := send_header h "Content-Length"
                 (Str.of_Z (Z.of_nat (String.length encoded))) in
      (Returned (Some encoded), self_end_headers self h)
  end.

(** The part of [send_head] after the directory test: the file at
    [path] is opened and its headers are sent.  Only [OSError] is caught
    around [open]. *)
Definition send_file_head (H : host) (self : methods) (h : handler)
           (path : string) : result (option string) * handler :=
  let ctype := self_guess_type self path in
  if Str.endswith path "/" then
    (Returned None, send_error H self h 404 (Some "File not found"))
  else
    let h := read_path h path in
    match open_rb H path with
    | Raised OSError =>
        (Returned None, send_error H self h 404 (Some "File not found"))
    | Raised e => (Raised e, h)
    | Blocked => (Blocked, h)
    | Returned f =>
        if not_modified H (headers h) path then
          let h := send_response H h 304 None in
          (Returned None, self_end_headers self h)
        else
          let h := send_response H h 200 None in
          let h := send_header h "Content-type" ctype in
          let h := send_header h "Content-Length"
                     (Str.of_Z (Z.of_nat (String.length f))) in
          let h := send_header h "Last-Modified" (last_modified H path) in
          (Returned (Some f), self_end_headers self h)
    end.

(** [send_head()]: the file object to copy, [None] when there is none,
    or the exception that leaves the method. *)
Definition send_head (H : host) (self : methods) (h : handler)
  : result (option string) * handler :=
  let fs_path := translate_path H h (path h) in
  if isdir H fs_path then
    if negb (Str.endswith (urlsplit_path H (path h)) "/") then
      let h := send_response H h 301 None in
      let h := send_header h "Location" (redirect_url H (path h)) in
      let h := send_header h "Content-Length" "0" in
      (Returned None, self_end_headers self h)
    else
      let index_html := Posixpath.join fs_path "index.html" in
      let index_htm := Posixpath.join fs_path "index.htm" in
      if isfile H index_html then send_file_head H self h index_html
      else if isfile H index_htm then send_file_head H self h index_htm
      else list_directory H self h fs_path
  else send_file_head H self h fs_path.

(** [shutil.COPY_BUFSIZE] on a platform that is not Windows. *)
Definition COPY_BUFSIZE : nat := 64 * 1024.

(** [shutil.copyfileobj(source, self.wfile)]: pieces of [COPY_BUFSIZE]
    bytes are read and written until a read returns nothing.  [turns]
    bounds the turns of the loop. *)
Fixpoint copyfileobj (turns : nat) (source : string) (h : handler) : handler :=
  match turns with
  | O => h
  | S k =>
      let buf := Str.take COPY_BUFSIZE source in
      if Str.truthy buf
      then copyfileobj k (Str.drop COPY_BUFSIZE source) (wfile_write h buf)
      else h
  end.

(** [copyfile(source, outputfile)]: every turn but the last consumes at
    least one byte, so one turn more than the bytes of the source is
    enough to reach the read that returns nothing. *)
Definition copyfile (h : handler) (source : string) : handler :=
  copyfileobj (S (String.length source)) source h.

(** [do_GET()]: the head, then the file copied to the socket. *)
Definition do_GET (H : host) (self : methods) (h : handler)
  : result unit * handler :=
  match send_head H self h with
  | (Returned (Some f), h) => (Returned tt, copyfile h f)
  | (Returned None, h) => (Returned tt, h)
  | (Raised e, h) => (Raised e, h)
  | (Blocked, h) => (Blocked, h)
  end.

(** [do_HEAD()] *)
Definition do_HEAD (H : host) (self : methods) (h : handler)
  : result unit * handler :=
  match send_head H self h with
  | (Returned _, h) => (Returned tt, h)
  | (Raised e, h) => (Raised e, h)
  | (Blocked, h) => (Blocked, h)
  end.

End SimpleHTTPRequestHandler.

(** ** [GameHTTPRequestHandler] ([server.py], lines 10 to 27) *)
Module GameHTTPRequestHandler.

(** [end_headers]: the three CORS headers, then the inherited method. *)
Definition end_headers (h : handler) : handler :=
  let h := BaseHTTPRequestHandler.send_header h
             "Access-Control-Allow-Origin" "*" in
  let h := BaseHTTPRequestHandler.send_header h
             "Access-Control-Allow-Methods" "GET, POST, OPTIONS" in
  let h := BaseHTTPRequestHandler.send_header h
             "Access-Control-Allow-Headers" "*" in
  BaseHTTPRequestHandler.end_headers h.

(** [guess_type] *)
Definition guess_type (H : host) (path : string) : string :=
  let mimetype := SimpleHTTPRequestHandler.guess_type H path in
  if Str.endswith path ".js" then "application/javascript"
  else if Str.endswith path ".css" then "text/css"
  else if Str.endswith path ".html" then "text/html"
  else mimetype.

(** The class: its two overrides. *)
Definition self (H : host) : methods :=
  {| self_end_headers := end_headers; self_guess_type := guess_type H |}.

(** The inherited entry points, resolved on this class. *)
Definition send_error (H : host) := BaseHTTPRequestHandler.send_error H (self H).
Definition send_head (H : host) := SimpleHTTPRequestHandler.send_head H (self H).
Definition do_GET (H : host) := SimpleHTTPRequestHandler.do_GET H (self H).
Definition do_HEAD (H : host) := SimpleHTTPRequestHandler.do_HEAD H (self H).


End GameHTTPRequestHandler.

(** ** The state monad of the process *)

Definition M (S A : Type) : Type := S -> result A * S.

Definition ret {S A : Type} (a : A) : M S A := fun s => (Returned a, s).

Definition bind {S A B : Type} (m : M S A) (k : A -> M S B) : M S B :=
  fun s =>
    match m s with
    | (Returned a, s') => k a s'
    | (Raised e, s') => (Raised e, s')
    | (Blocked, s') => (Blocked, s')
    end.

Definition raise {S A : Type} (e : exn) : M S A := fun s => (Raised e, s).

(** [try: m  except <catches>: handler] *)
Definition try_except {S A : Type} (m : M S A) (catches : exn -> bool)
           (handler : M S A) : M S A :=
  fun s =>
    match m s with
    | (Raised e, s') => if catches e then handler s' else (Raised e, s')
    | r => r
    end.

(** [try: m  finally: fin] *)
Definition try_finally {S A : Type} (m : M S A) (fin : M S unit) : M S A :=
  fun s =>
    match m s with
    | (Blocked, s') => (Blocked, s')
    | (r, s') =>
        match fin s' with
        | (Returned _, s'') => (r, s'')
        | (Raised e, s'') => (Raised e, s'')
        | (Blocked, s'') => (Blocked, s'')
        end
    end.

(** A bare [except:] catches every exception. *)
Definition any_exception (e : exn) : bool := true.

Definition is_KeyboardInterrupt (e : exn) : bool :=
  match e with KeyboardInterrupt => true | _ => false end.

Declare Scope py_scope.
Delimit Scope py_scope with py.
Notation "x <- m ;; k" := (bind m (fun x => k))
  (at level 61, m at next level, right associativity) : py_scope.
Notation "m ;; k" := (bind m (fun _ => k))
  (at level 61, right associativity) : py_scope.

(** The two handlers SIGINT has in this program: Python's default, which
    raises [KeyboardInterrupt], and [signal_handler] of [server.py]. *)
Inductive sighandler := Default_int_handler | Signal_handler.

(** What the process does to the outside, in the order it does it. *)
Inductive event :=
| Print (line : string)
| Traceback (e : exn)
| Chdir (d : string)
| Bind (port : Z)
| Run (args : list string)
| Browser (url : string)
| Serve (port : Z)
| Close (port : Z).

Record world := {
  cwd : string;
  sigint : sighandler;
  events : list event
}.

(** What the launcher and the server take from the platform. *)
Record platform := {
  (** [int(s)]: [None] is [ValueError] *)
  int : string -> option Z;
  (** [os.path.expanduser] on a path that starts with a tilde *)
  expand_home : string -> string;
  (** [os.chdir(d)] from a working directory: the new one, or [None] for
      [OSError] (no such directory, not a directory, no permission) *)
  chdir : string -> string -> option string;
  (** whether the port can be bound and listened on *)
  port_free : Z -> bool;
  (** [subprocess.run(args, check=False, capture_output=True)]: the return
      code of the command, or [None] when the command cannot be executed
      and [OSError] is raised.  A command that is executed is taken to
      exit: a command that never exits, on which [subprocess.run] waits
      for ever, has no counterpart here. *)
  run : list string -> option Z;
  (** [webbrowser.open(url)]: whether a browser was launched *)
  webbrowser_open : string -> bool;
  (** whether SIGINT is delivered while [serve_forever] waits.  This is
      the one place where a signal is delivered: a SIGINT that arrives
      earlier, while [start] binds, prints or launches the browser, has
      no counterpart here. *)
  sigint_while_serving : bool
}.

Definition emit (e : event) : M world unit :=
  fun w => (Returned tt,
            {| cwd := cwd w; sigint := sigint w; events := append (events w) e |}).

(** [print(line)] *)
Definition print (line : string) : M world unit := emit (Print line).

(** [os.getcwd()] *)
Definition getcwd : M world string := fun w => (Returned (cwd w), w).

(** [os.chdir(d)] *)
Definition os_chdir (P : platform) (d : string) : M world unit :=
  fun w =>
    match chdir P (cwd w) d with
    | Some d' =>
        (Returned tt,
         {| cwd := d'; sigint := sigint w; events := append (events w) (Chdir d) |})
    | None => (Raised OSError, w)
    end.

(** [signal.signal(signal.SIGINT, handler)] *)
Definition signal_signal (handler : sighandler) : M world unit :=
  fun w => (Returned tt,
            {| cwd := cwd w; sigint := handler; events := events w |}).

(** [sys.exit(code)] *)
Definition sys_exit {A : Type} (code : Z) : M world A := raise (SystemExit code).

(** [os.path.expanduser(path)] *)
Definition expanduser (P : platform) (path : string) : string :=
  if negb (Str.startswith path "~") then path else expand_home P path.

(** [subprocess.run(args, check=False, capture_output=True)] *)
Definition subprocess_run (P : platform) (args : list string) : M world unit :=
  (emit (Run args) ;;
   match run P args with
   | Some _ => ret tt
   | None => raise OSError
   end)%py.

(** [webbrowser.open(url)] *)
Definition webbrowser_open_url (P : platform) (url : string) : M world unit :=
  (emit (Browser url) ;;
   let _ := webbrowser_open P url in ret tt)%py.

Definition NL : string := String "010" EmptyString.

(** [signal_handler(sig, frame)] ([server.py], lines 75 to 77) *)
Definition signal_handler : M world unit :=
  (print (NL ++ "🛑 Received interrupt signal...") ;;
   sys_exit 0)%py.

(** The handler installed for SIGINT runs in the main thread. *)
Definition deliver_sigint : M world unit :=
  fun w =>
    match sigint w with
    | Default_int_handler => (Raised KeyboardInterrupt, w)
    | Signal_handler => signal_handler w
    end.

(** A computation on the world, run inside a method of an object. *)
Definition lift {O A : Type} (m : M world A) : M (O * world) A :=
  fun s =>
    match m (snd s) with
    | (r, w') => (r, (fst s, w'))
    end.

Definition get_self {O : Type} : M (O * world) O :=
  fun s => (Returned (fst s), s).

Definition set_self {O : Type} (o : O) : M (O * world) unit :=
  fun s => (Returned tt, (o, snd s)).

(** ** [socketserver.TCPServer] *)
Module TCPServer.

(** The flag and the event of [BaseServer], whether a [serve_forever]
    loop of this server is running in another thread, and the
    listening socket. *)
Record t := {
  server_port : Z;
  shutdown_request : bool;
  is_shut_down : bool;
  loop_running : bool;
  socket_open : bool
}.

(** [TCPServer(("", port), handler)]: the socket is created, bound and
    listening, or the error of [bind] is raised. *)
Definition init (P : platform) (port : Z) : M world t :=
  if negb ((0 <=? port)%Z && (port <=? 65535)%Z) then raise OverflowError
  else if port_free P port then
    (emit (Bind port) ;;
     ret {| server_port := port; shutdown_request := false;
            is_shut_down := false; loop_running := false;
            socket_open := true |})%py
  else raise OSError.

(** The [finally] clause of [serve_forever]. *)
Definition loop_exit (s : t) : t :=
  {| server_port := server_port s; shutdown_request := false;
     is_shut_down := true; loop_running := false;
     socket_open := socket_open s |}.

(** [serve_forever()] in the calling thread.  The loop ends when the
    shutdown flag is set or when an exception crosses it; the handler of
    a signal runs in this thread, between two turns of the loop. *)
Definition serve_forever (P : platform) : M (t * world) unit :=
  (s <- get_self ;;
   set_self {| server_port := server_port s;
               shutdown_request := shutdown_request s;
               is_shut_down := false;
               loop_running := loop_running s;
               socket_open := socket_open s |} ;;
   lift (emit (Serve (server_port s))) ;;
   try_finally
     (if shutdown_request s then ret tt
      else if sigint_while_serving P then
        lift deliver_sigint ;; (fun st => (Blocked, st))
      else fun st => (Blocked, st))
     (s' <- get_self ;; set_self (loop_exit s')))%py.

(** [shutdown()]: sets the flag and waits for the event. *)
Definition shutdown : M (t * world) unit :=
  (s <- get_self ;;
   if is_shut_down s then
     set_self {| server_port := server_port s; shutdown_request := true;
                 is_shut_down := true; loop_running := loop_running s;
                 socket_open := socket_open s |}
   else if loop_running s then set_self (loop_exit s)
   else fun st => (Blocked, st))%py.

(** [server_close()]: closing a closed socket does nothing. *)
Definition server_close : M (t * world) unit :=
  (s <- get_self ;;
   set_self {| server_port := server_port s;
               shutdown_request := shutdown_request s;
               is_shut_down := is_shut_down s;
               loop_running := loop_running s;
               socket_open := false |} ;;
   if socket_open s then lift (emit (Close (server_port s))) else ret tt)%py.

End TCPServer.

(** ** [GameServer] ([server.py], lines 29 to 73) *)
Module GameServer.

Record t := {
  port : Z;
  directory : string;
  httpd : option TCPServer.t
}.

(** A method of [TCPServer] called on [self.httpd]. *)
Definition on_httpd {A : Type} (m : M (TCPServer.t * world) A)
  : M (t * world) A :=
  fun st =>
    match httpd (fst st) with
    | None => (Raised AttributeError, st)
    | Some s =>
        match m (s, snd st) with
        | (r, (s', w')) =>
            (r, ({| port := port (fst st); directory := directory (fst st);
                    httpd := Some s' |}, w'))
        end
    end.

(** [self.httpd = value] *)
Definition set_httpd (value : option TCPServer.t) : M (t * world) unit :=
  (self <- get_self ;;
   set_self {| port := port self; directory := directory self;
               httpd := value |})%py.

(** [__init__(port=8000, directory=None)] *)
Definition init (port : Z) (directory : option string) : M world t :=
  (here <- getcwd ;;
   ret {| port := port;
          directory := match directory with
                       | Some d => if Str.truthy d then d else here
                       | None => here
                       end;
          httpd := None |})%py.

Definition url (self : t) : string :=
  "http://localhost:" ++ Str.of_Z (port self).

(** [stop()] *)
Definition stop : M (t * world) unit :=
  (self <- get_self ;;
   match httpd self with
   | Some _ =>
       lift (print (NL ++ "🛑 Stopping server...")) ;;
       on_httpd TCPServer.shutdown ;;
       on_httpd TCPServer.server_close ;;
       lift (print "✅ Server stopped")
   | None => ret tt
   end)%py.

(** The browser launch of [start], lines 48 to 61. *)
Definition open_browser (P : platform) (self : t) : M world unit :=
  try_except
    (subprocess_run P ["open"; "-a"; "Google Chrome"; url self])
    any_exception
    (try_except
       (subprocess_run P ["open"; "-a"; "Firefox"; url self])
       any_exception
       (webbrowser_open_url P (url self))).

(** ["-" * 50] *)
Fixpoint times (s : string) (n : nat) : string :=
  match n with
  | O => EmptyString
  | S k => s ++ times s k
  end.

(** [start()] *)
Definition start (P : platform) : M (t * world) unit :=
  (self <- get_self ;;
   lift (os_chdir P (directory self)) ;;
   server <- lift (TCPServer.init P (port self)) ;;
   set_httpd (Some server) ;;
   lift (print "🎮 Game Server Starting...") ;;
   lift (print ("📁 Serving: " ++ directory self)) ;;
   lift (print ("🌐 URL: " ++ url self)) ;;
   lift (print "⏹️  Press Ctrl+C to stop") ;;
   lift (print (times "-" 50)) ;;
   lift (open_browser P self) ;;
   try_except (on_httpd (TCPServer.serve_forever P))
     is_KeyboardInterrupt
     stop)%py.

End GameServer.

(** ** The launcher ([server.py], lines 79 to 102) *)
Module Launcher.

(** Lines 83 to 94: [PORT] and [GAME_DIR] after the arguments are
    parsed; [here] is [os.getcwd()] and [argv] is [sys.argv], the
    script name first. *)
Definition parse_args (P : platform) (here : string) (argv : list string)
  : result (Z * string) :=
  let PORT := 8000%Z in
  let GAME_DIR := here in
  match argv with
  | _ :: arg1 :: rest =>
      match int P arg1 with
      | Some n => Returned (n, GAME_DIR)
      | None =>
          let GAME_DIR := arg1 in
          match rest with
          | arg2 :: _ =>
              match int P arg2 with
              | Some n => Returned (n, GAME_DIR)
              | None => Raised ValueError
              end
          | [] => Returned (PORT, GAME_DIR)
          end
      end
  | _ => Returned (PORT, GAME_DIR)
  end.

(** Lines 96 to 98. *)
Definition expand_icloud (P : platform) (GAME_DIR : string) : string :=
  if Str.contains "iCloud" GAME_DIR && Str.contains "~" GAME_DIR
  then expanduser P GAME_DIR
  else GAME_DIR.

(** A method run on an object from the top level. *)
Definition call {O A : Type} (o : O) (m : M (O * world) A) : M world A :=
  fun w =>
    match m (o, w) with
    | (r, (_, w')) => (r, w')
    end.

(** The [__main__] block up to the construction of the server, lines 81
    to 101. *)
Definition configure (P : platform) (argv : list string) : M world GameServer.t :=
  (signal_signal Signal_handler ;;
   here <- getcwd ;;
   config <- (fun w => (parse_args P here argv, w)) ;;
   let GAME_DIR := expand_icloud P (snd config) in
   GameServer.init (fst config) (Some GAME_DIR))%py.

(** The [__main__] block. *)
Definition main (P : platform) (argv : list string) : M world unit :=
  (server <- configure P argv ;;
   call server (GameServer.start P))%py.

(** How the interpreter ends. *)
Inductive outcome :=
| Exit (status : Z)
| Running.

(** [python server.py args]: an uncaught [SystemExit] ends the process
    with its code; any other uncaught exception is reported on the
    error stream and the status is 1 (for [KeyboardInterrupt], that of
    a process ended by SIGINT). *)
Definition python (P : platform) (argv : list string) (w : world)
  : outcome * world :=
  match main P argv w with
  | (Returned _, w') => (Exit 0, w')
  | (Raised (SystemExit code), w') => (Exit code, w')
  | (Raised KeyboardInterrupt, w') =>
      (Exit 130, snd (emit (Traceback KeyboardInterrupt) w'))
  | (Raised e, w') => (Exit 1, snd (emit (Traceback e) w'))
  | (Blocked, w') => (Running, w')
  end.

End Launcher.

(** ** Concrete platforms

    Instances of the two records, on which the definitions above compute. *)

(** [int(s)] on ASCII text: surrounding whitespace, a sign, decimal
    digits with single underscores between them, and at most 4300
    digits (the default limit of CPython 3.11). *)
Module AsciiInt.

Definition isspace (c : ascii) : bool :=
  let n := nat_of_ascii c in
  (((9 <=? n) && (n <=? 13)) || (n =? 32))%nat.

Definition digit (c : ascii) : option Z :=
  let n := nat_of_ascii c in
  if ((48 <=? n) && (n <=? 57))%nat then Some (Z.of_nat (n - 48)) else None.

Fixpoint lstrip (s : string) : string :=
  match s with
  | String c t => if isspace c then lstrip t else s
  | EmptyString => EmptyString
  end.

Fixpoint rstrip (s : string) : string :=
  match s with
  | EmptyString => EmptyString
  | String c t =>
      match rstrip t with
      | EmptyString => if isspace c then EmptyString else String c EmptyString
      | t' => String c t'
      end
  end.

(** The digits after the sign: [after_digit] tells whether the previous
    character was a digit, [count] how many digits were read. *)
Fixpoint digits (s : string) (acc : Z) (after_digit : bool) (count : nat)
  : option Z :=
  match s with
  | EmptyString =>
      if after_digit && (count <=? 4300)%nat then Some acc else None
  | String c t =>
      match digit c with
      | Some d => digits t (10 * acc + d)%Z true (S count)
      | None =>
          if Ascii.eqb c "_" && after_digit then digits t acc false count
          else None
      end
  end.

Definition parse (s : string) : option Z :=
  match rstrip (lstrip s) with
  | String "-" t => option_map Z.opp (digits t 0%Z false 0)
  | String "+" t => digits t 0%Z false 0
  | t => digits t 0%Z false 0
  end.

End AsciiInt.

(** A macOS machine whose home is [/Users/dev]: the directories
    [/Users/dev/game] and [/srv/game] exist, every port from 1024 on is
    free, [open] runs, Google Chrome is not installed and Firefox is. *)
Definition mac_without_chrome : platform :=
  {| int := AsciiInt.parse;
     expand_home := fun p => "/Users/dev" ++ Str.drop 1 p;
     chdir := fun here d =>
       if String.eqb d "/Users/dev/game" || String.eqb d "/srv/game"
       then Some d else None;
     port_free := fun p => (1024 <=? p)%Z;
     run := fun args =>
       match args with
       | ["open"; "-a"; "Google Chrome"; _] => Some 1%Z
       | _ => Some 0%Z
       end;
     webbrowser_open := fun _ => true;
     sigint_while_serving := true |}.

(** The same machine, on a day nobody presses Ctrl+C. *)
Definition quiet_mac : platform :=
  {| int := int mac_without_chrome;
     expand_home := expand_home mac_without_chrome;
     chdir := chdir mac_without_chrome;
     port_free := port_free mac_without_chrome;
     run := run mac_without_chrome;
     webbrowser_open := webbrowser_open mac_without_chrome;
     sigint_while_serving := false |}.

(** The shell the launcher is started from. *)
Definition shell : world :=
  {| cwd := "/Users/dev/game"; sigint := Default_int_handler; events := [] |}.

(** A host that has two files and a FIFO under [/srv/game], and whose
    [unquote] turns [%00] into a null character. *)
Definition game_host : host :=
  {| isdir := fun p => String.eqb p "/srv/game" || String.eqb p "/srv/game/";
     isfile := fun p => String.eqb p "/srv/game/index.html";
     open_rb := fun p =>
       if String.eqb p "/srv/game/index.html" then Returned "<html></html>"
       else if String.eqb p "/srv/game/etc/passwd" then Returned "level data"
       else if String.eqb p "/srv/game/pipe" then Blocked
       else if Str.contains (String "000" "") p then Raised ValueError
       else Raised OSError;
     listdir := fun p =>
       if String.eqb p "/srv/game" || String.eqb p "/srv/game/"
       then Returned ["etc"; "index.html"] else Raised OSError;
     render_listing := fun _ _ entries => Str.join " " entries;
     filesystem_encoding := "utf-8";
     last_modified := fun _ => "Thu, 01 Jan 2026 00:00:00 GMT";
     not_modified := fun _ _ => false;
     unquote_escapes := fun s =>
       if String.eqb s "/a%00b" then "/a" ++ String "000" "b" else s;
     urlsplit_path := fun p => Str.before "#" (Str.before "?" p);
     redirect_url := fun p => p ++ "/";
     extensions_map := fun ext =>
       if String.eqb ext ".gz" then Some "application/gzip" else None;
     str_lower := fun s => s;
     mimetypes_guess_type := fun p =>
       if Str.endswith p ".png" then Some "image/png" else None;
     version_string := "SimpleHTTP/0.6 Python/3.11.2";
     date_time_string := "Thu, 01 Jan 2026 00:00:00 GMT";
     responses := fun code =>
       if (code =? 200)%Z then Some "OK"
       else if (code =? 404)%Z then Some "Not Found" else None;
     error_body := fun code message => "<h1>" ++ message ++ "</h1>" |}.

(** The handler after [parse_request]: nothing buffered, nothing sent. *)
Definition new_request (version command request_path root : string) : handler :=
  {| request_version := version; command := command; path := request_path;
     headers := []; directory := root;
     headers_buffer := []; wfile := []; request_log := []; fs_reads := [] |}.

(** ** Vocabulary of the properties *)

(** Neither [extensions_map] nor [mimetypes] knows the extension. *)
Definition unknown_type (H : host) (p : string) : Prop :=
  let ext := snd (Posixpath.splitext p) in
  extensions_map H ext = None
  /\ extensions_map H (str_lower H ext) = None
  /\ (mimetypes_guess_type H p = None \/ mimetypes_guess_type H p = Some "").

(** The path has none of the three suffixes that [guess_type] of
    [server.py] overrides. *)
Definition other_extension (p : string) : Prop :=
  (forall stem, p <> stem ++ ".js")
  /\ (forall stem, p <> stem ++ ".css")
  /\ (forall stem, p <> stem ++ ".html").

(** The three CORS header lines, as they stand in a header block. *)
Definition cors_headers : string :=
  "Access-Control-Allow-Origin: *" ++ Str.CRLF
  ++ "Access-Control-Allow-Methods: GET, POST, OPTIONS" ++ Str.CRLF
  ++ "Access-Control-Allow-Headers: *" ++ Str.CRLF.


(** From [h] to [h'] the handler has written a header block that ends
    with the three lines and the blank line, then possibly a body. *)
Definition answers_with_cors (h h' : handler) : Prop :=
  exists (lines : string) (body : list string),
    wfile h' = List.app (wfile h) ((lines ++ cors_headers ++ Str.CRLF) :: body).


(** The non-empty components of a path. *)
Definition segments (p : string) : list string :=
  filter Str.truthy (Str.split "/" p).











(** The port is in range and free: [TCPServer(("", port), ...)] binds. *)
Definition bindable (P : platform) (port : Z) : bool :=
  (0 <=? port)%Z && (port <=? 65535)%Z && port_free P port.

(** No listening socket is open and no accept loop runs. *)
Definition not_running (self : GameServer.t) : Prop :=
  match GameServer.httpd self with
  | None => True
  | Some s =>
      TCPServer.socket_open s = false /\ TCPServer.loop_running s = false
  end.

(** A [GameServer] used as a library under Python's default SIGINT
    handler: started on [/srv/game], interrupted, and so stopped by the
    [except KeyboardInterrupt] clause of [start]. *)
Definition library_world : world :=
  {| cwd := "/Users/dev"; sigint := Default_int_handler; events := [] |}.

(** The server such a run leaves behind. *)
Definition stopped_server : GameServer.t :=
  {| GameServer.port := 8000; GameServer.directory := "/srv/game";
     GameServer.httpd :=
       Some {| TCPServer.server_port := 8000;
               TCPServer.shutdown_request := true;
               TCPServer.is_shut_down := true;
               TCPServer.loop_running := false;
               TCPServer.socket_open := false |} |}.

(** A server for [/srv/game] on port 8000, not started. *)
Definition game_server : GameServer.t :=
  {| GameServer.port := 8000; GameServer.directory := "/srv/game";
     GameServer.httpd := None |}.

Definition interrupted_run : result unit * (GameServer.t * world) :=
  GameServer.start mac_without_chrome (game_server, library_world).

(** The two lines [stop()] prints. *)
Definition stopping_line : string := NL ++ "🛑 Stopping server...".
Definition stopped_line : string := "✅ Server stopped".

(** The line [signal_handler] prints. *)
Definition interrupt_line : string := NL ++ "🛑 Received interrupt signal...".

(** The commands of the browser launch. *)
Definition open_chrome (self : GameServer.t) : list string :=
  ["open"; "-a"; "Google Chrome"; GameServer.url self].
Definition open_firefox (self : GameServer.t) : list string :=
  ["open"; "-a"; "Firefox"; GameServer.url self].

(** What [start] prints before it opens the browser. *)
Definition banner (self : GameServer.t) : list event :=
  [Print "🎮 Game Server Starting...";
   Print ("📁 Serving: " ++ GameServer.directory self);
   Print ("🌐 URL: " ++ GameServer.url self);
   Print "⏹️  Press Ctrl+C to stop";
   Print (GameServer.times "-" 50)].

(** The launch attempts [start] makes, in order: the next one is made
    only when the previous command could not be executed. *)
Definition launch_attempts (P : platform) (self : GameServer.t) : list event :=
  match run P (open_chrome self) with
  | Some _ => [Run (open_chrome self)]
  | None =>
      match run P (open_firefox self) with
      | Some _ => [Run (open_chrome self); Run (open_firefox self)]
      | None => [Run (open_chrome self); Run (open_firefox self);
                 Browser (GameServer.url self)]
      end
  end.

(** A world with more events. *)
Definition after (w : world) (here : string) (more : list event) : world :=
  {| cwd := here; sigint := sigint w; events := List.app (events w) more |}.

(** The server [TCPServer(("", port), ...)] returns: bound, listening,
    its loop not started. *)
Definition listening (port : Z) : TCPServer.t :=
  {| TCPServer.server_port := port;
     TCPServer.shutdown_request := false;
     TCPServer.is_shut_down := false;
     TCPServer.loop_running := false;
     TCPServer.socket_open := true |}.

(** [self] after [self.httpd = s]. *)
Definition with_httpd (self : GameServer.t) (s : TCPServer.t) : GameServer.t :=
  {| GameServer.port := GameServer.port self;
     GameServer.directory := GameServer.directory self;
     GameServer.httpd := Some s |}.

(** What [start] has done when it enters [serve_forever]. *)
Definition startup (P : platform) (self : GameServer.t) : list event :=
  Chdir (GameServer.directory self) :: Bind (GameServer.port self)
  :: List.app (banner self) (launch_attempts P self).




(* ================================================================== *)
(** * Part II: properties                                              *)
(* ================================================================== *)

(** ** Strings *)

Lemma str_app_nil_r (s : string) : s ++ "" = s.
Proof. induction s as [|c s IH]; simpl; [reflexivity | now rewrite IH]. Qed.

Lemma str_app_assoc (a b c : string) : (a ++ b) ++ c = a ++ (b ++ c).
Proof. induction a as [|x a IH]; simpl; [reflexivity | now rewrite IH]. Qed.

Lemma str_length_app (a b : string) :
  String.length (a ++ b) = String.length a + String.length b.
Proof. induction a as [|x a IH]; simpl; [reflexivity | now rewrite IH]. Qed.


Lemma prefix_inv (p s : string) :
  String.prefix p s = true -> exists t, s = p ++ t.
Proof.
  revert s; induction p as [|c p IH]; intros s Hp.
  - now exists s.
  - destruct s as [|d s]; simpl in Hp; [discriminate|].
    destruct (ascii_dec c d) as [->|]; [|discriminate].
    destruct (IH _ Hp) as [t ->]. now exists t.
Qed.

Lemma endswith_eq (s suf : string) :
  Str.endswith s suf
  = (String.eqb s suf
     || match s with
        | EmptyString => false
        | String _ t => Str.endswith t suf
        end).
Proof. destruct s; reflexivity. Qed.

(** [endswith] is exactly: the string is some stem followed by the suffix. *)
Lemma endswith_iff (s suf : string) :
  Str.endswith s suf = true <-> exists stem, s = stem ++ suf.
Proof.
  split.
  - induction s as [|c s IH]; rewrite endswith_eq; intros Hs;
      apply orb_true_iff in Hs; destruct Hs as [Hs|Hs].
    + apply String.eqb_eq in Hs. now exists "".
    + discriminate.
    + apply String.eqb_eq in Hs. now exists "".
    + destruct (IH Hs) as [stem ->]. now exists (String c stem).
  - intros [stem ->]. induction stem as [|c stem IH].
    + change ("" ++ suf) with suf. rewrite endswith_eq.
      now rewrite String.eqb_refl.
    + change (String c stem ++ suf) with (String c (stem ++ suf)).
      rewrite endswith_eq. cbv beta iota.
      rewrite IH. apply orb_true_r.
Qed.

Lemma endswith_false (s suf : string) :
  Str.endswith s suf = false <-> forall stem, s <> stem ++ suf.
Proof.
  split.
  - intros Hf stem ->.
    assert (Ht : Str.endswith (stem ++ suf) suf = true)
      by (apply endswith_iff; now exists stem).
    congruence.
  - intros Hn. destruct (Str.endswith s suf) eqn:E; [|reflexivity].
    apply endswith_iff in E. destruct E as [stem ->]. now elim (Hn stem).
Qed.

(** Two ways to cut a string at the same distance from its end agree. *)
Lemma app_tail_inj (a b x y : string) :
  String.length x = String.length y -> a ++ x = b ++ y -> x = y.
Proof.
  revert b; induction a as [|c a IH]; intros b Hl He.
  - destruct b as [|d b]; simpl in He; [exact He|].
    apply (f_equal String.length) in He. simpl in He.
    rewrite str_length_app in He. lia.
  - destruct b as [|d b]; simpl in He.
    + apply (f_equal String.length) in He. simpl in He.
      rewrite str_length_app in He. lia.
    + injection He as _ He. exact (IH b Hl He).
Qed.

Lemma endswith_exclusive (s stem a b x y : string) :
  String.length x = String.length y -> x <> y ->
  s = stem ++ (a ++ x) -> Str.endswith s (b ++ y) = false.
Proof.
  intros Hl Hne ->. apply endswith_false. intros stem' He.
  rewrite <- !str_app_assoc in He.
  apply Hne. exact (app_tail_inj _ _ _ _ Hl He).
Qed.

(** ** The MIME type of a served path *)

Lemma js_not_css_html (p stem : string) :
  (p = stem ++ ".css" -> Str.endswith p ".js" = false)
  /\ (p = stem ++ ".html" ->
      Str.endswith p ".js" = false /\ Str.endswith p ".css" = false).
Proof.
  split.
  - intros Hp. apply (endswith_exclusive p stem ".c" "." "ss" "js");
      [reflexivity | discriminate | exact Hp].
  - intros Hp. split.
    + apply (endswith_exclusive p stem ".ht" "." "ml" "js");
        [reflexivity | discriminate | exact Hp].
    + apply (endswith_exclusive p stem ".ht" ".c" "ml" "ss");
        [reflexivity | discriminate | exact Hp].
Qed.

(** C3.  The content type of a path: [application/javascript] when the
    path ends in [.js], [text/css] when it ends in [.css], [text/html]
    when it ends in [.html].  For every other path it is the guess of
    the inherited [guess_type]: the entry of [extensions_map] for the
    extension of the path; failing that, the entry for the extension in
    lower case; failing that, the type [mimetypes.guess_type] gives for
    the path; and [application/octet-stream] when none of the three
    knows the path. *)
Theorem guess_type_content_type (H : host) (p : string) :
  let ext := snd (Posixpath.splitext p) in
  (forall stem, p = stem ++ ".js" ->
     GameHTTPRequestHandler.guess_type H p = "application/javascript")
  /\ (forall stem, p = stem ++ ".css" ->
     GameHTTPRequestHandler.guess_type H p = "text/css")
  /\ (forall stem, p = stem ++ ".html" ->
     GameHTTPRequestHandler.guess_type H p = "text/html")
  /\ ((forall stem, p <> stem ++ ".js") ->
      (forall stem, p <> stem ++ ".css") ->
      (forall stem, p <> stem ++ ".html") ->
      GameHTTPRequestHandler.guess_type H p
      = SimpleHTTPRequestHandler.guess_type H p)
  /\ (unknown_type H p ->
      SimpleHTTPRequestHandler.guess_type H p = "application/octet-stream")
  /\ (other_extension p ->
      (forall t,
         extensions_map H ext = Some t ->
         GameHTTPRequestHandler.guess_type H p = t)
      /\ (forall t,
            extensions_map H ext = None ->
            extensions_map H (str_lower H ext) = Some t ->
            GameHTTPRequestHandler.guess_type H p = t)
      /\ (forall guess,
            extensions_map H ext = None ->
            extensions_map H (str_lower H ext) = None ->
            mimetypes_guess_type H p = Some guess -> guess <> "" ->
            GameHTTPRequestHandler.guess_type H p = guess)
      /\ (unknown_type H p ->
          GameHTTPRequestHandler.guess_type H p = "application/octet-stream")).
Proof.
  intros ext.
  assert (Hother : other_extension p ->
                   GameHTTPRequestHandler.guess_type H p
                   = SimpleHTTPRequestHandler.guess_type H p).
  { intros (Hjs & Hcss & Hhtml). unfold GameHTTPRequestHandler.guess_type.
    apply endswith_false in Hjs, Hcss, Hhtml.
    now rewrite Hjs, Hcss, Hhtml. }
  assert (Hunknown : unknown_type H p ->
                     SimpleHTTPRequestHandler.guess_type H p
                     = "application/octet-stream").
  { intros (He & Hl & Hm). unfold SimpleHTTPRequestHandler.guess_type.
    cbv zeta. rewrite He, Hl. destruct Hm as [-> | ->]; reflexivity. }
  split; [|split; [|split; [|split; [|split]]]].
  - intros stem Hp. unfold GameHTTPRequestHandler.guess_type.
    assert (E : Str.endswith p ".js" = true)
      by (apply endswith_iff; now exists stem).
    now rewrite E.
  - intros stem Hp. unfold GameHTTPRequestHandler.guess_type.
    destruct (js_not_css_html p stem) as [Hjs _].
    assert (E : Str.endswith p ".css" = true)
      by (apply endswith_iff; now exists stem).
    now rewrite (Hjs Hp), E.
  - intros stem Hp. unfold GameHTTPRequestHandler.guess_type.
    destruct (js_not_css_html p stem) as [_ Hh].
    destruct (Hh Hp) as [Hjs Hcss].
    assert (E : Str.endswith p ".html" = true)
      by (apply endswith_iff; now exists stem).
    now rewrite Hjs, Hcss, E.
  - intros Hjs Hcss Hhtml. apply Hother. now repeat split.
  - exact Hunknown.
  - intros Ho. rewrite (Hother Ho).
    split; [|split; [|split]].
    + intros t He. unfold SimpleHTTPRequestHandler.guess_type.
      cbv zeta. fold ext. now rewrite He.
    + intros t He Hl. unfold SimpleHTTPRequestHandler.guess_type.
      cbv zeta. fold ext. now rewrite He, Hl.
    + intros guess He Hl Hm Hne. unfold SimpleHTTPRequestHandler.guess_type.
      cbv zeta. fold ext. rewrite He, Hl, Hm.
      destruct guess; [now elim Hne | reflexivity].
    + exact Hunknown.
Qed.

(** The table at work on [game_host], whose [extensions_map] knows
    [.gz] and whose [mimetypes] knows [.png]. *)
Lemma guess_type_content_type_witness :
  GameHTTPRequestHandler.guess_type game_host "index.js" = "application/javascript"
  /\ GameHTTPRequestHandler.guess_type game_host "styles.css" = "text/css"
  /\ GameHTTPRequestHandler.guess_type game_host "index.html" = "text/html"
  /\ GameHTTPRequestHandler.guess_type game_host "save.gz" = "application/gzip"
  /\ GameHTTPRequestHandler.guess_type game_host "logo.png" = "image/png"
  /\ GameHTTPRequestHandler.guess_type game_host "level.dat"
     = "application/octet-stream".
Proof.
  assert (Hother : forall p,
             Str.endswith p ".js" = false -> Str.endswith p ".css" = false ->
             Str.endswith p ".html" = false -> other_extension p).
  { intros p Hjs Hcss Hhtml. repeat split; now apply endswith_false. }
  pose proof (guess_type_content_type game_host "index.js") as (Hjs & _).
  pose proof (guess_type_content_type game_host "styles.css") as (_ & Hcss & _).
  pose proof (guess_type_content_type game_host "index.html")
    as (_ & _ & Hhtml & _).
  pose proof (guess_type_content_type game_host "save.gz")
    as (_ & _ & _ & _ & _ & Hgz).
  pose proof (guess_type_content_type game_host "logo.png")
    as (_ & _ & _ & _ & _ & Hpng).
  pose proof (guess_type_content_type game_host "level.dat")
    as (_ & _ & _ & _ & _ & Hdat).
  refine (conj (Hjs "index" eq_refl)
            (conj (Hcss "styles" eq_refl)
               (conj (Hhtml "index" eq_refl)
                  (conj (proj1 (Hgz _) "application/gzip" _)
                     (conj (proj1 (proj2 (proj2 (Hpng _))) "image/png" _ _ _ _)
                        (proj2 (proj2 (proj2 (Hdat _))) _)))))).
  - apply Hother; reflexivity.
  - reflexivity.
  - apply Hother; reflexivity.
  - reflexivity.
  - reflexivity.
  - reflexivity.
  - discriminate.
  - apply Hother; reflexivity.
  - unfold unknown_type. cbn. auto.
Defined.

(** ** The command line *)

(** C4.  [PORT] and [GAME_DIR] after the arguments are parsed: the
    defaults 8000 and the working directory with no argument; a single
    argument that is an integer is the port; a single argument that is
    not is the directory; a first argument that is not an integer and a
    second that is are the directory and the port. *)
Theorem parse_args_cases (P : platform) (here prog : string) :
  Launcher.parse_args P here [prog] = Returned (8000%Z, here)
  /\ (forall a n, int P a = Some n ->
        Launcher.parse_args P here [prog; a] = Returned (n, here))
  /\ (forall a, int P a = None ->
        Launcher.parse_args P here [prog; a] = Returned (8000%Z, a))
  /\ (forall a b n rest, int P a = None -> int P b = Some n ->
        Launcher.parse_args P here (prog :: a :: b :: rest) = Returned (n, a)).
Proof.
  split; [reflexivity|].
  split; [intros a n Ha; cbn; now rewrite Ha|].
  split; [intros a Ha; cbn; now rewrite Ha|].
  intros a b n rest Ha Hb. cbn. now rewrite Ha, Hb.
Qed.

Lemma parse_args_cases_witness :
  Launcher.parse_args mac_without_chrome "/Users/dev/game" ["server.py"; "9090"]
  = Returned (9090%Z, "/Users/dev/game")
  /\ Launcher.parse_args mac_without_chrome "/Users/dev/game" ["server.py"; "/srv/game"]
     = Returned (8000%Z, "/srv/game")
  /\ Launcher.parse_args mac_without_chrome "/Users/dev/game"
       ["server.py"; "/srv/game"; "9090"]
     = Returned (9090%Z, "/srv/game").
Proof.
  pose proof (parse_args_cases mac_without_chrome "/Users/dev/game" "server.py")
    as (_ & Hport & Hdir & Hboth).
  exact (conj (Hport "9090" 9090%Z eq_refl)
           (conj (Hdir "/srv/game" eq_refl)
              (Hboth "/srv/game" "9090" 9090%Z [] eq_refl eq_refl))).
Defined.

(** C9.  When the first argument is an integer, the arguments after it
    are not read: the port is the first argument and the directory is the
    working directory, whatever follows. *)
Theorem parse_args_ignores_rest (P : platform) (here prog a : string) (n : Z)
        (rest : list string) :
  int P a = Some n ->
  Launcher.parse_args P here (prog :: a :: rest) = Returned (n, here).
Proof. intros Ha. cbn. now rewrite Ha. Qed.

Lemma parse_args_ignores_rest_witness :
  Launcher.parse_args mac_without_chrome "/Users/dev/game"
    ["server.py"; "9090"; "not a port"; "7"]
  = Returned (9090%Z, "/Users/dev/game").
Proof.
  exact (parse_args_ignores_rest mac_without_chrome "/Users/dev/game"
           "server.py" "9090" 9090%Z ["not a port"; "7"] eq_refl).
Defined.

(** C10.  When neither the first nor the second argument is an integer,
    [int] raises [ValueError] in the [except] clause: the launcher ends
    with status 1 after the interpreter has reported the exception, and
    has done nothing but install the signal handler: no directory
    change, no socket bound, no server started. *)
Theorem two_non_integers_exit (P : platform) (prog a b : string)
        (rest : list string) (w : world) :
  int P a = None -> int P b = None ->
  Launcher.python P (prog :: a :: b :: rest) w
  = (Launcher.Exit 1,
     {| cwd := cwd w; sigint := Signal_handler;
        events := append (events w) (Traceback ValueError) |}).
Proof.
  intros Ha Hb.
  unfold Launcher.python, Launcher.main, bind, signal_signal, getcwd.
  cbn. rewrite Ha, Hb. reflexivity.
Qed.

Lemma two_non_integers_exit_witness :
  Launcher.python mac_without_chrome ["server.py"; "/srv/game"; "http"] shell
  = (Launcher.Exit 1,
     {| cwd := "/Users/dev/game"; sigint := Signal_handler;
        events := [Traceback ValueError] |}).
Proof.
  exact (two_non_integers_exit mac_without_chrome "server.py" "/srv/game" "http"
           [] shell eq_refl eq_refl).
Defined.

(** ** The header block of a response *)

Lemma join_cons (x : string) (xs : list string) :
  Str.join "" (x :: xs) = x ++ Str.join "" xs.
Proof.
  unfold Str.join. destruct xs as [|y ys]; simpl.
  - now rewrite str_app_nil_r.
  - reflexivity.
Qed.

Lemma join_app (xs ys : list string) :
  Str.join "" (xs ++ ys)%list = Str.join "" xs ++ Str.join "" ys.
Proof.
  induction xs as [|x xs IH].
  - reflexivity.
  - change ((x :: xs) ++ ys)%list with (x :: (xs ++ ys))%list.
    rewrite !join_cons, IH. now rewrite str_app_assoc.
Qed.

Section HeaderBuffer.
Variable H : host.


Lemma send_header_version h k v :
  request_version (BaseHTTPRequestHandler.send_header h k v) = request_version h.
Proof.
  unfold BaseHTTPRequestHandler.send_header.
  now destruct (BaseHTTPRequestHandler.is_http09 h).
Qed.



Lemma is_http09_false h :
  request_version h <> "HTTP/0.9" -> BaseHTTPRequestHandler.is_http09 h = false.
Proof. intros Hv. now apply String.eqb_neq. Qed.

Lemma send_header_eq h k v :
  request_version h <> "HTTP/0.9" ->
  BaseHTTPRequestHandler.send_header h k v
  = set_headers_buffer h
      (append (headers_buffer h) (k ++ ": " ++ v ++ Str.CRLF)).
Proof.
  intros Hv. unfold BaseHTTPRequestHandler.send_header.
  now rewrite (is_http09_false h Hv).
Qed.

Lemma base_end_headers_eq h :
  request_version h <> "HTTP/0.9" ->
  BaseHTTPRequestHandler.end_headers h
  = set_headers_buffer
      (wfile_write h (Str.join "" (append (headers_buffer h) Str.CRLF))) [].
Proof.
  intros Hv. unfold BaseHTTPRequestHandler.end_headers.
  now rewrite (is_http09_false h Hv).
Qed.

(** What the overriding [end_headers] writes for a request that is not
    HTTP/0.9: the buffered lines, the three CORS lines, the blank line. *)
Lemma end_headers_writes h :
  request_version h <> "HTTP/0.9" ->
  wfile (GameHTTPRequestHandler.end_headers h)
  = append (wfile h)
      (Str.join "" (headers_buffer h) ++ cors_headers ++ Str.CRLF)
  /\ headers_buffer (GameHTTPRequestHandler.end_headers h) = []
  /\ request_version (GameHTTPRequestHandler.end_headers h) = request_version h.
Proof.
  intros Hv. unfold GameHTTPRequestHandler.end_headers.
  rewrite base_end_headers_eq by (rewrite !send_header_version; exact Hv).
  rewrite send_header_eq by (rewrite !send_header_version; exact Hv).
  rewrite send_header_eq by (rewrite !send_header_version; exact Hv).
  rewrite send_header_eq by exact Hv.
  cbn [request_version set_headers_buffer headers_buffer wfile wfile_write].
  split; [|split; reflexivity].
  f_equal. unfold append.
  rewrite !join_app, !join_cons.
  change (Str.join "" []) with "".
  rewrite !str_app_nil_r, !str_app_assoc. reflexivity.
Qed.

Lemma end_headers_answers h0 h :
  request_version h <> "HTTP/0.9" -> wfile h = wfile h0 ->
  answers_with_cors h0 (GameHTTPRequestHandler.end_headers h).
Proof.
  intros Hv Hw. destruct (end_headers_writes h Hv) as (Hwr & _ & _).
  exists (Str.join "" (headers_buffer h)), []. now rewrite Hwr, Hw.
Qed.

Lemma answers_then_write h0 h body :
  answers_with_cors h0 h -> answers_with_cors h0 (wfile_write h body).
Proof.
  intros (lines & rest & Hw). exists lines, (rest ++ [body])%list.
  cbn [wfile wfile_write]. unfold append. rewrite Hw.
  now rewrite <- app_assoc.
Qed.

(** For an HTTP/0.9 request the overriding [end_headers] leaves the
    handler as it is. *)
Lemma end_headers_noop h :
  request_version h = "HTTP/0.9" -> GameHTTPRequestHandler.end_headers h = h.
Proof.
  intros Hv.
  assert (Hs : forall k v, BaseHTTPRequestHandler.send_header h k v = h).
  { intros k v. unfold BaseHTTPRequestHandler.send_header,
      BaseHTTPRequestHandler.is_http09. now rewrite Hv. }
  unfold GameHTTPRequestHandler.end_headers. rewrite !Hs.
  unfold BaseHTTPRequestHandler.end_headers, BaseHTTPRequestHandler.is_http09.
  now rewrite Hv.
Qed.

Lemma end_headers_version h :
  request_version (GameHTTPRequestHandler.end_headers h) = request_version h.
Proof.
  destruct (String.eqb_spec (request_version h) "HTTP/0.9") as [Hv|Hv].
  - now rewrite (end_headers_noop h Hv).
  - exact (proj2 (proj2 (end_headers_writes h Hv))).
Qed.


End HeaderBuffer.



Lemma contains_eq (sub s : string) :
  Str.contains sub s
  = (String.prefix sub s
     || match s with
        | EmptyString => false
        | String _ t => Str.contains sub t
        end).
Proof. destruct s; reflexivity. Qed.



(** ** Paths *)








Lemma truthy_iff (s : string) : Str.truthy s = true <-> s <> "".
Proof.
  unfold Str.truthy. rewrite negb_true_iff. apply String.eqb_neq.
Qed.

Lemma segments_root_empty : segments "" = [].
Proof. reflexivity. Qed.










(** ** What a request reads, writes and logs *)



Lemma take_drop (n : nat) (s : string) : Str.take n s ++ Str.drop n s = s.
Proof.
  revert s; induction n as [|n IH]; intros [|c s]; simpl; try reflexivity.
  now rewrite IH.
Qed.




Lemma copyfileobj_eq (turns : nat) (source : string) (h : handler) :
  SimpleHTTPRequestHandler.copyfileobj (S turns) source h
  = if Str.truthy (Str.take SimpleHTTPRequestHandler.COPY_BUFSIZE source)
    then SimpleHTTPRequestHandler.copyfileobj turns
           (Str.drop SimpleHTTPRequestHandler.COPY_BUFSIZE source)
           (wfile_write h
              (Str.take SimpleHTTPRequestHandler.COPY_BUFSIZE source))
    else h.
Proof. reflexivity. Qed.



(** One turn more changes nothing once the bound exceeds the length of
    the source: the loop has ended at the read that returns nothing. *)
Lemma copyfileobj_stable (turns : nat) (source : string) (h : handler) :
  (String.length source < turns)%nat ->
  SimpleHTTPRequestHandler.copyfileobj (S turns) source h
  = SimpleHTTPRequestHandler.copyfileobj turns source h.
Proof.
  revert source h. induction turns as [|k IH]; intros source h Hlt; [lia|].
  rewrite (copyfileobj_eq (S k) source h), (copyfileobj_eq k source h).
  set (buf := Str.take SimpleHTTPRequestHandler.COPY_BUFSIZE source).
  set (rest := Str.drop SimpleHTTPRequestHandler.COPY_BUFSIZE source).
  assert (Hcut : buf ++ rest = source) by apply take_drop.
  destruct (Str.truthy buf) eqn:Hb; [|reflexivity].
  apply truthy_iff in Hb. apply IH.
  apply (f_equal String.length) in Hcut. rewrite str_length_app in Hcut.
  destruct buf as [|c buf]; [now elim Hb|]. simpl in Hcut. lia.
Qed.

(** Any bound beyond the length of the source gives the same copy. *)
Lemma copyfileobj_enough (turns : nat) (source : string) (h : handler) :
  (String.length source < turns)%nat ->
  SimpleHTTPRequestHandler.copyfileobj turns source h
  = SimpleHTTPRequestHandler.copyfile h source.
Proof.
  unfold SimpleHTTPRequestHandler.copyfile. intros Hlt.
  replace turns
    with (turns - S (String.length source) + S (String.length source))%nat
    by lia.
  induction (turns - S (String.length source))%nat as [|d IH];
    [reflexivity|].
  change (S d + S (String.length source))%nat
    with (S (d + S (String.length source))).
  rewrite copyfileobj_stable by lia. exact IH.
Qed.

Section Traces.
Variable H : host.
























End Traces.

(** ** The CORS headers of a response *)






(** ** The paths a request can reach *)




(** ** Events *)

Lemma after_after (w : world) (d d' : string) (a b : list event) :
  after (after w d a) d' b = after w d' (a ++ b)%list.
Proof. unfold after. cbn. now rewrite app_assoc. Qed.

Lemma emit_after (e : event) (w : world) :
  emit e w = (Returned tt, after w (cwd w) [e]).
Proof. reflexivity. Qed.

(** ** [stop] *)

(** C7 as stated fails: the server of [interrupted_run] has been
    stopped, no socket is open and no loop runs, and [stop()] on it is
    not a no-op; it prints its two lines again. *)
Lemma stop_on_stopped_server_prints :
  ~ (forall (self : GameServer.t) (w : world),
       not_running self ->
       GameServer.stop (self, w) = (Returned tt, (self, w))).
Proof.
  intros Hall.
  specialize (Hall (fst (snd interrupted_run)) (snd (snd interrupted_run))).
  assert (Hn : not_running (fst (snd interrupted_run)))
    by (vm_compute; split; reflexivity).
  specialize (Hall Hn). clear Hn.
  apply (f_equal (fun r => List.length (events (snd (snd r))))) in Hall.
  vm_compute in Hall. discriminate Hall.
Qed.

(** C7, amended.  [stop()] on a server whose [httpd] was never created
    is a no-op and raises nothing.  On a server whose accept loop runs in
    another thread, or has ended, it returns normally: the shutdown has
    been requested and acknowledged, the loop has ended and the listening
    socket is closed.  On a server already stopped it raises nothing and
    leaves the server as it is, but prints its two lines again. *)
Theorem stop_cases (self : GameServer.t) (w : world) :
  (GameServer.httpd self = None ->
   GameServer.stop (self, w) = (Returned tt, (self, w)))
  /\ (forall s,
        GameServer.httpd self = Some s ->
        TCPServer.is_shut_down s = true \/ TCPServer.loop_running s = true ->
        exists s' w',
          GameServer.stop (self, w)
          = (Returned tt,
             ({| GameServer.port := GameServer.port self;
                 GameServer.directory := GameServer.directory self;
                 GameServer.httpd := Some s' |}, w'))
          /\ TCPServer.socket_open s' = false
          /\ TCPServer.is_shut_down s' = true
          /\ (TCPServer.is_shut_down s = false ->
              TCPServer.loop_running s' = false)
          /\ cwd w' = cwd w /\ sigint w' = sigint w
          /\ events w'
             = (events w
                ++ Print stopping_line
                   :: (if TCPServer.socket_open s
                       then [Close (TCPServer.server_port s)] else [])
                ++ [Print stopped_line])%list)
  /\ (forall s,
        GameServer.httpd self = Some s ->
        TCPServer.is_shut_down s = true ->
        TCPServer.shutdown_request s = true ->
        TCPServer.socket_open s = false ->
        GameServer.stop (self, w)
        = (Returned tt,
           (self,
            {| cwd := cwd w; sigint := sigint w;
               events := (events w
                          ++ [Print stopping_line; Print stopped_line])%list |}))).
Proof.
  destruct self as [port dir httpd], w as [here handler evs].
  cbn [GameServer.httpd GameServer.port GameServer.directory cwd sigint events].
  split; [|split].
  - intros ->. reflexivity.
  - intros [sp rq down run sock] -> Hs.
    cbn [TCPServer.is_shut_down TCPServer.loop_running TCPServer.socket_open
         TCPServer.server_port] in *.
    destruct down.
    + destruct sock; eexists; eexists; (split; [reflexivity|]);
        cbn; unfold append; rewrite <- ?app_assoc; repeat split; discriminate.
    + destruct Hs as [Hs|Hs]; [discriminate|]. subst run.
      destruct sock; eexists; eexists; (split; [reflexivity|]);
        cbn; unfold append; rewrite <- ?app_assoc; repeat split.
  - intros [sp rq down run sock] -> Hd Hr Ho.
    cbn [TCPServer.is_shut_down TCPServer.shutdown_request
         TCPServer.socket_open] in *.
    subst. cbn. unfold append. now rewrite <- !app_assoc.
Qed.

Lemma interrupted_run_stopped :
  fst interrupted_run = Returned tt
  /\ fst (snd interrupted_run) = stopped_server.
Proof. vm_compute. split; reflexivity. Qed.

Lemma stop_cases_witness :
  GameServer.stop (stopped_server, library_world)
  = (Returned tt,
     (stopped_server,
      {| cwd := "/Users/dev"; sigint := Default_int_handler;
         events := [Print stopping_line; Print stopped_line] |})).
Proof.
  destruct (stop_cases stopped_server library_world) as (_ & _ & Hagain).
  exact (Hagain _ eq_refl eq_refl eq_refl eq_refl).
Defined.

(** ** [start] and the launcher *)

(** With commands that exit when they are executed, the browser launch
    returns: it makes the attempts of [launch_attempts] and nothing
    else, and the [OSError] of a command that cannot be executed is
    caught by the next clause. *)
Lemma open_browser_run (P : platform) (self : GameServer.t) (w : world) :
  GameServer.open_browser P self w
  = (Returned tt, after w (cwd w) (launch_attempts P self)).
Proof.
  unfold GameServer.open_browser, try_except, subprocess_run,
    webbrowser_open_url, bind, launch_attempts.
  fold (open_chrome self). fold (open_firefox self).
  rewrite !emit_after.
  destruct (run P (open_chrome self)); [reflexivity|].
  cbn [raise any_exception]. rewrite !emit_after.
  destruct (run P (open_firefox self)); cbn [raise any_exception ret];
    rewrite ?emit_after, ?after_after; reflexivity.
Qed.

Lemma bind_returned {S A B : Type} (m : M S A) (k : A -> M S B) s a s' :
  m s = (Returned a, s') -> bind m k s = k a s'.
Proof. intros Hm. unfold bind. now rewrite Hm. Qed.

Lemma bind_raised {S A B : Type} (m : M S A) (k : A -> M S B) s e s' :
  m s = (Raised e, s') -> bind m k s = (Raised e, s').
Proof. intros Hm. unfold bind. now rewrite Hm. Qed.

Lemma bind_blocked {S A B : Type} (m : M S A) (k : A -> M S B) s s' :
  m s = (Blocked, s') -> bind m k s = (Blocked, s').
Proof. intros Hm. unfold bind. now rewrite Hm. Qed.

Lemma lift_run {O A : Type} (m : M world A) (o : O) w r w' :
  m w = (r, w') -> lift m (o, w) = (r, (o, w')).
Proof. intros Hm. unfold lift. cbn [fst snd]. now rewrite Hm. Qed.

Lemma print_after (line : string) (w : world) :
  print line w = (Returned tt, after w (cwd w) [Print line]).
Proof. reflexivity. Qed.

Lemma cwd_after w d l : cwd (after w d l) = d.
Proof. reflexivity. Qed.

Lemma sigint_after w d l : sigint (after w d l) = sigint w.
Proof. reflexivity. Qed.

Lemma events_after w d l : events (after w d l) = (events w ++ l)%list.
Proof. reflexivity. Qed.

Lemma os_chdir_ok P d w d' :
  chdir P (cwd w) d = Some d' ->
  os_chdir P d w = (Returned tt, after w d' [Chdir d]).
Proof. intros Hc. unfold os_chdir. now rewrite Hc. Qed.

Lemma init_ok P port w :
  bindable P port = true ->
  TCPServer.init P port w
  = (Returned (listening port), after w (cwd w) [Bind port]).
Proof.
  intros Hb. unfold bindable in Hb. apply andb_true_iff in Hb.
  destruct Hb as [Hr Hf]. unfold TCPServer.init. rewrite Hr, Hf. reflexivity.
Qed.

Lemma init_fails P port w :
  bindable P port = false ->
  exists e, (e = OSError \/ e = OverflowError)
            /\ TCPServer.init P port w = (Raised e, w).
Proof.
  intros Hb. unfold bindable in Hb. unfold TCPServer.init.
  destruct ((0 <=? port)%Z && (port <=? 65535)%Z); cbn [negb andb] in *.
  - rewrite Hb. exists OSError. split; [now left | reflexivity].
  - exists OverflowError. split; [now right | reflexivity].
Qed.

(** [start] up to the accept loop: the directory change, the bind, the
    banner and the browser launch, in this order. *)
Lemma start_to_serve P self w d' :
  chdir P (cwd w) (GameServer.directory self) = Some d' ->
  bindable P (GameServer.port self) = true ->
  GameServer.start P (self, w)
  = try_except (GameServer.on_httpd (TCPServer.serve_forever P))
      is_KeyboardInterrupt GameServer.stop
      (with_httpd self (listening (GameServer.port self)),
       after w d' (startup P self)).
Proof.
  intros Hc Hb. unfold GameServer.start.
  erewrite bind_returned by reflexivity.
  erewrite bind_returned by (apply lift_run, os_chdir_ok, Hc).
  erewrite bind_returned by (apply lift_run, init_ok, Hb).
  erewrite bind_returned by reflexivity.
  erewrite bind_returned by (apply lift_run, print_after).
  erewrite bind_returned by (apply lift_run, print_after).
  erewrite bind_returned by (apply lift_run, print_after).
  erewrite bind_returned by (apply lift_run, print_after).
  erewrite bind_returned by (apply lift_run, print_after).
  erewrite bind_returned by (apply lift_run, open_browser_run).
  cbn [fst snd]. rewrite !cwd_after, !after_after. reflexivity.
Qed.

Lemma start_chdir_fails P self w :
  chdir P (cwd w) (GameServer.directory self) = None ->
  GameServer.start P (self, w) = (Raised OSError, (self, w)).
Proof.
  intros Hc. unfold GameServer.start.
  erewrite bind_returned by reflexivity.
  apply bind_raised. unfold lift, os_chdir. cbn [fst snd]. now rewrite Hc.
Qed.

Lemma start_bind_fails P self w d' :
  chdir P (cwd w) (GameServer.directory self) = Some d' ->
  bindable P (GameServer.port self) = false ->
  exists e, (e = OSError \/ e = OverflowError)
    /\ GameServer.start P (self, w)
       = (Raised e, (self, after w d' [Chdir (GameServer.directory self)])).
Proof.
  intros Hc Hb.
  destruct (init_fails P (GameServer.port self)
              (after w d' [Chdir (GameServer.directory self)]) Hb)
    as (e & He & Hi).
  exists e. split; [exact He|]. unfold GameServer.start.
  erewrite bind_returned by reflexivity.
  erewrite bind_returned by (apply lift_run, os_chdir_ok, Hc).
  apply bind_raised. apply lift_run. exact Hi.
Qed.

(** The accept loop, entered with the shutdown flag down. *)
Lemma serve_forever_run P s w :
  TCPServer.shutdown_request s = false ->
  TCPServer.serve_forever P (s, w)
  = if sigint_while_serving P then
      match sigint w with
      | Signal_handler =>
          (Raised (SystemExit 0),
           (TCPServer.loop_exit s,
            after w (cwd w) [Serve (TCPServer.server_port s);
                             Print interrupt_line]))
      | Default_int_handler =>
          (Raised KeyboardInterrupt,
           (TCPServer.loop_exit s,
            after w (cwd w) [Serve (TCPServer.server_port s)]))
      end
    else
      (Blocked,
       ({| TCPServer.server_port := TCPServer.server_port s;
           TCPServer.shutdown_request := false;
           TCPServer.is_shut_down := false;
           TCPServer.loop_running := TCPServer.loop_running s;
           TCPServer.socket_open := TCPServer.socket_open s |},
        after w (cwd w) [Serve (TCPServer.server_port s)])).
Proof.
  intros Hr. destruct s as [sp rq down run sock], w as [here handler evs].
  cbn in Hr. subst rq.
  destruct (sigint_while_serving P) eqn:Hs.
  - destruct handler; unfold TCPServer.serve_forever, bind, get_self, set_self,
      lift, try_finally, deliver_sigint, signal_handler, sys_exit, raise,
      print, emit, after, interrupt_line, append;
      cbn [fst snd TCPServer.shutdown_request TCPServer.server_port
           TCPServer.loop_running TCPServer.socket_open cwd sigint events];
      rewrite Hs; unfold bind;
      cbn [fst snd sigint cwd events TCPServer.loop_exit
           TCPServer.server_port TCPServer.socket_open];
      rewrite <- ?app_assoc; reflexivity.
  - unfold TCPServer.serve_forever, bind, get_self, set_self,
      lift, try_finally, emit, after, append;
      cbn [fst snd TCPServer.shutdown_request TCPServer.server_port
           TCPServer.loop_running TCPServer.socket_open cwd sigint events];
      rewrite Hs; reflexivity.
Qed.

Lemma on_httpd_run {A : Type} (m : M (TCPServer.t * world) A) self s w r s' w' :
  GameServer.httpd self = Some s ->
  m (s, w) = (r, (s', w')) ->
  GameServer.on_httpd m (self, w) = (r, (with_httpd self s', w')).
Proof.
  intros Hh Hm. unfold GameServer.on_httpd. cbn [fst snd].
  now rewrite Hh, Hm.
Qed.

(** [stop()] on a server whose loop has ended. *)
Lemma stop_after_loop self s w :
  GameServer.httpd self = Some s ->
  TCPServer.is_shut_down s = true ->
  GameServer.stop (self, w)
  = (Returned tt,
     (with_httpd self
        {| TCPServer.server_port := TCPServer.server_port s;
           TCPServer.shutdown_request := true;
           TCPServer.is_shut_down := true;
           TCPServer.loop_running := TCPServer.loop_running s;
           TCPServer.socket_open := false |},
      after w (cwd w)
        (Print stopping_line
         :: (if TCPServer.socket_open s
             then [Close (TCPServer.server_port s)] else [])
         ++ [Print stopped_line])%list)).
Proof.
  destruct self as [port dir httpd], s as [sp rq down run sock],
    w as [here handler evs].
  cbn [GameServer.httpd TCPServer.is_shut_down]. intros -> ->.
  destruct sock; cbn; unfold after, append; cbn; rewrite <- ?app_assoc;
    reflexivity.
Qed.

Section Start.
Variables (P : platform) (self : GameServer.t) (w : world) (d' : string).
Hypothesis Hchdir : chdir P (cwd w) (GameServer.directory self) = Some d'.
Hypothesis Hbind : bindable P (GameServer.port self) = true.

Let port := GameServer.port self.

(** SIGINT under [signal_handler]: [SystemExit(0)] leaves [start]. *)
Lemma start_interrupted :
  sigint_while_serving P = true -> sigint w = Signal_handler ->
  GameServer.start P (self, w)
  = (Raised (SystemExit 0),
     (with_httpd self (TCPServer.loop_exit (listening port)),
      after w d' (startup P self ++ [Serve port; Print interrupt_line]))).
Proof.
  intros Hs Hh. rewrite (start_to_serve P self w d' Hchdir Hbind).
  pose proof (serve_forever_run P (listening port)
                (after w d' (startup P self)) eq_refl) as Hrun.
  rewrite Hs, sigint_after, Hh in Hrun.
  unfold try_except.
  erewrite on_httpd_run; [| reflexivity | exact Hrun].
  cbn [is_KeyboardInterrupt].
  now rewrite cwd_after, after_after.
Qed.

(** SIGINT under Python's default handler: [KeyboardInterrupt] is
    caught by [start], which stops the server and returns. *)
Lemma start_keyboard_interrupt :
  sigint_while_serving P = true -> sigint w = Default_int_handler ->
  GameServer.start P (self, w)
  = (Returned tt,
     (with_httpd self
        {| TCPServer.server_port := port;
           TCPServer.shutdown_request := true;
           TCPServer.is_shut_down := true;
           TCPServer.loop_running := false;
           TCPServer.socket_open := false |},
      after w d'
        (startup P self
         ++ [Serve port; Print stopping_line; Close port;
             Print stopped_line]))).
Proof.
  intros Hs Hh. rewrite (start_to_serve P self w d' Hchdir Hbind).
  pose proof (serve_forever_run P (listening port)
                (after w d' (startup P self)) eq_refl) as Hrun.
  rewrite Hs, sigint_after, Hh in Hrun.
  unfold try_except.
  erewrite on_httpd_run; [| reflexivity | exact Hrun].
  cbn [is_KeyboardInterrupt].
  erewrite stop_after_loop; [| reflexivity | reflexivity].
  rewrite !cwd_after, !after_after. reflexivity.
Qed.

(** No signal: [start] never returns. *)
Lemma start_serves_forever :
  sigint_while_serving P = false ->
  GameServer.start P (self, w)
  = (Blocked,
     (with_httpd self (listening port),
      after w d' (startup P self ++ [Serve port]))).
Proof.
  intros Hs. rewrite (start_to_serve P self w d' Hchdir Hbind).
  pose proof (serve_forever_run P (listening port)
                (after w d' (startup P self)) eq_refl) as Hrun.
  rewrite Hs in Hrun.
  unfold try_except.
  erewrite on_httpd_run; [| reflexivity | exact Hrun].
  now rewrite cwd_after, after_after.
Qed.

(** In every case the events of [start] begin with the directory
    change, the bind, the banner and the browser launch. *)
Lemma start_events :
  exists rest,
    events (snd (snd (GameServer.start P (self, w))))
    = (events w ++ startup P self ++ rest)%list.
Proof.
  destruct (sigint_while_serving P) eqn:Hs.
  - destruct (sigint w) eqn:Hh.
    + rewrite (start_keyboard_interrupt Hs Hh). eexists.
      cbn [snd]. rewrite events_after. reflexivity.
    + rewrite (start_interrupted Hs Hh). eexists.
      cbn [snd]. rewrite events_after. reflexivity.
  - rewrite (start_serves_forever Hs). eexists.
    cbn [snd]. rewrite events_after. reflexivity.
Qed.

End Start.

(** ** The launcher *)

(** What [configure] leaves: the handler installed, nothing else done,
    and a server built from the parsed arguments. *)
Lemma configure_world P argv w server w1 :
  Launcher.configure P argv w = (Returned server, w1) ->
  w1 = {| cwd := cwd w; sigint := Signal_handler; events := events w |}
  /\ GameServer.httpd server = None
  /\ exists port dir,
       Launcher.parse_args P (cwd w) argv = Returned (port, dir)
       /\ GameServer.port server = port
       /\ GameServer.directory server
          = (if Str.truthy (Launcher.expand_icloud P dir)
             then Launcher.expand_icloud P dir else cwd w).
Proof.
  unfold Launcher.configure, bind, signal_signal, getcwd, GameServer.init, ret.
  cbn [cwd sigint events].
  destruct (Launcher.parse_args P (cwd w) argv) as [[port dir]| |];
    [|discriminate|discriminate].
  cbn [fst snd]. intros [= <- <-]. cbn [GameServer.httpd GameServer.port
                                         GameServer.directory].
  split; [reflexivity|]. split; [reflexivity|]. now exists port, dir.
Qed.

(** The exit of the interpreter, from the result of [start]. *)
Lemma python_of_start P argv w server w1 :
  Launcher.configure P argv w = (Returned server, w1) ->
  Launcher.python P argv w
  = match GameServer.start P (server, w1) with
    | (Returned _, (_, w')) => (Launcher.Exit 0, w')
    | (Raised (SystemExit code), (_, w')) => (Launcher.Exit code, w')
    | (Raised KeyboardInterrupt, (_, w')) =>
        (Launcher.Exit 130, after w' (cwd w') [Traceback KeyboardInterrupt])
    | (Raised e, (_, w')) => (Launcher.Exit 1, after w' (cwd w') [Traceback e])
    | (Blocked, (_, w')) => (Launcher.Running, w')
    end.
Proof.
  intros Hc. unfold Launcher.python, Launcher.main.
  erewrite bind_returned by exact Hc. unfold Launcher.call.
  destruct (GameServer.start P (server, w1)) as [[u|e|] [o w']];
    [reflexivity | destruct e; reflexivity | reflexivity].
Qed.

(** C5.  [start()] changes the working directory first and binds the
    socket second.  When the directory cannot be entered it raises
    [OSError] and has done nothing; when the port cannot be bound it
    raises [OSError] (or [OverflowError], for a port out of range) after
    the directory change only.  Nothing in the launcher catches either:
    the interpreter reports the exception and the process ends with
    status 1, no socket bound. *)
Theorem start_chdir_then_bind (P : platform) (self : GameServer.t) (w : world) :
  (chdir P (cwd w) (GameServer.directory self) = None ->
   GameServer.start P (self, w) = (Raised OSError, (self, w)))
  /\ (forall d',
        chdir P (cwd w) (GameServer.directory self) = Some d' ->
        bindable P (GameServer.port self) = false ->
        exists e,
          (e = OSError \/ e = OverflowError)
          /\ GameServer.start P (self, w)
             = (Raised e,
                (self, after w d' [Chdir (GameServer.directory self)])))
  /\ (forall d',
        chdir P (cwd w) (GameServer.directory self) = Some d' ->
        bindable P (GameServer.port self) = true ->
        exists rest,
          events (snd (snd (GameServer.start P (self, w))))
          = (events w
             ++ Chdir (GameServer.directory self)
                :: Bind (GameServer.port self) :: rest)%list)
  /\ (forall argv w0,
        Launcher.configure P argv w0 = (Returned self, w) ->
        chdir P (cwd w) (GameServer.directory self) = None
        \/ bindable P (GameServer.port self) = false ->
        exists e w' done,
          Launcher.python P argv w0 = (Launcher.Exit 1, w')
          /\ events w' = (events w ++ done ++ [Traceback e])%list
          /\ forall port, ~ In (Bind port) done).
Proof.
  split; [apply start_chdir_fails|].
  split; [intros d'; apply start_bind_fails|].
  split.
  - intros d' Hc Hb. destruct (start_events P self w d' Hc Hb) as [rest Hr].
    exists (banner self ++ launch_attempts P self ++ rest)%list.
    rewrite Hr. unfold startup. cbn [app]. now rewrite <- !app_assoc.
  - intros argv w0 Hconf Hfail.
    rewrite (python_of_start P argv w0 self w Hconf).
    destruct (chdir P (cwd w) (GameServer.directory self)) as [d'|] eqn:Hc.
    + destruct Hfail as [Hfail|Hb]; [discriminate|].
      destruct (start_bind_fails P self w d' Hc Hb) as (e & He & ->).
      exists e. eexists. exists [Chdir (GameServer.directory self)].
      split; [destruct He as [-> | ->]; reflexivity|].
      split.
      * rewrite !events_after. now rewrite <- app_assoc.
      * intros port [Hin|[]]. discriminate.
    + rewrite (start_chdir_fails P self w Hc).
      exists OSError. eexists. exists [].
      split; [reflexivity|]. split; [reflexivity|]. intros port [].
Qed.

Lemma start_chdir_then_bind_witness :
  exists e w' done,
    Launcher.python mac_without_chrome ["server.py"; "/nowhere"] shell
    = (Launcher.Exit 1, w')
    /\ events w' = ([] ++ done ++ [Traceback e])%list
    /\ forall port, ~ In (Bind port) done.
Proof.
  refine (proj2 (proj2 (proj2
    (start_chdir_then_bind mac_without_chrome
       {| GameServer.port := 8000; GameServer.directory := "/nowhere";
          GameServer.httpd := None |}
       {| cwd := "/Users/dev/game"; sigint := Signal_handler; events := [] |})))
    ["server.py"; "/nowhere"] shell _ _).
  - vm_compute. reflexivity.
  - left. vm_compute. reflexivity.
Defined.

(** C8.  The launcher installs [signal_handler] for SIGINT before
    anything else; when SIGINT arrives while [serve_forever] waits, the
    handler prints its line and raises [SystemExit(0)], which no clause
    of [start] catches: the process ends with status 0 and no exception
    is reported. *)
Theorem sigint_while_serving_exits_0 (P : platform) (argv : list string)
        (w0 w : world) (server : GameServer.t) (d' : string) :
  Launcher.configure P argv w0 = (Returned server, w) ->
  chdir P (cwd w) (GameServer.directory server) = Some d' ->
  bindable P (GameServer.port server) = true ->
  sigint_while_serving P = true ->
  sigint w = Signal_handler
  /\ Launcher.python P argv w0
     = (Launcher.Exit 0,
        after w d'
          (startup P server
           ++ [Serve (GameServer.port server); Print interrupt_line])).
Proof.
  intros Hconf Hc Hb Hs.
  assert (Hh : sigint w = Signal_handler).
  { destruct (configure_world P argv w0 server w Hconf) as (-> & _). reflexivity. }
  split; [exact Hh|].
  rewrite (python_of_start P argv w0 server w Hconf).
  now rewrite (start_interrupted P server w d' Hc Hb Hs Hh).
Qed.

Lemma sigint_while_serving_exits_0_witness :
  fst (Launcher.python mac_without_chrome ["server.py"; "/srv/game"; "9090"] shell)
  = Launcher.Exit 0.
Proof.
  refine (f_equal fst (proj2
    (sigint_while_serving_exits_0 mac_without_chrome
       ["server.py"; "/srv/game"; "9090"] shell
       {| cwd := "/Users/dev/game"; sigint := Signal_handler; events := [] |}
       {| GameServer.port := 9090; GameServer.directory := "/srv/game";
          GameServer.httpd := None |}
       "/srv/game" _ _ _ _)));
    vm_compute; reflexivity.
Defined.

(** C6, on a Mac without Google Chrome: [open -a "Google Chrome"] runs
    and fails with status 1, [subprocess.run] with [check=False] returns
    all the same, so no [except] clause is entered: Firefox, which would
    open, is never tried, nor is [webbrowser.open]. *)
Lemma chrome_failure_ends_chain :
  run mac_without_chrome (open_chrome game_server) = Some 1%Z
  /\ run mac_without_chrome (open_firefox game_server) = Some 0%Z
  /\ GameServer.open_browser mac_without_chrome game_server shell
     = (Returned tt, after shell (cwd shell) [Run (open_chrome game_server)]).
Proof. vm_compute. repeat split. Qed.

(* ================================================================== *)
(** * Part III: further properties of [server.py]                      *)
(* ================================================================== *)

(** ** The command line, continued *)

(** X1.  The only way the argument parsing fails: it raises
    [ValueError], and only when there are two arguments of which neither
    is an integer.  It never blocks. *)
Theorem parse_args_failure (P : platform) (here : string) (argv : list string) :
  Launcher.parse_args P here argv <> Blocked
  /\ forall e,
       Launcher.parse_args P here argv = Raised e ->
       e = ValueError
       /\ exists prog a b rest,
            argv = prog :: a :: b :: rest
            /\ int P a = None /\ int P b = None.
Proof.
  unfold Launcher.parse_args.
  destruct argv as [|prog [|a rest]]; try (split; [discriminate | discriminate]).
  destruct (int P a) eqn:Ha; [split; discriminate|].
  destruct rest as [|b rest]; [split; discriminate|].
  destruct (int P b) eqn:Hb; [split; discriminate|].
  split; [discriminate|]. intros e [= <-]. split; [reflexivity|].
  now exists prog, a, b, rest.
Qed.

Lemma parse_args_failure_witness :
  ValueError = ValueError
  /\ exists prog a b rest,
       ["server.py"; "games"; "eighty"] = prog :: a :: b :: rest
       /\ int mac_without_chrome a = None /\ int mac_without_chrome b = None.
Proof.
  exact (proj2 (parse_args_failure mac_without_chrome "/Users/dev/game"
                  ["server.py"; "games"; "eighty"]) ValueError eq_refl).
Defined.

Lemma startswith_contains (s p : string) :
  Str.startswith s p = true -> Str.contains p s = true.
Proof.
  unfold Str.startswith. intros Hp. rewrite contains_eq, Hp. reflexivity.
Qed.

(** X2.  Lines 96 to 98 touch a directory only when it names [iCloud]
    and starts with a tilde: then it becomes its home expansion.  A
    directory without [iCloud] is left as it is even when it starts with a
    tilde, and so is a directory whose tilde is not in front. *)
Theorem expand_icloud_cases (P : platform) (d : string) :
  (Str.contains "iCloud" d = false -> Launcher.expand_icloud P d = d)
  /\ (Str.startswith d "~" = false -> Launcher.expand_icloud P d = d)
  /\ (Str.contains "iCloud" d = true -> Str.startswith d "~" = true ->
      Launcher.expand_icloud P d = expand_home P d).
Proof.
  unfold Launcher.expand_icloud, expanduser. split; [|split].
  - intros ->. reflexivity.
  - intros ->. cbn [negb]. now destruct (_ && _).
  - intros -> Ht. rewrite (startswith_contains d "~" Ht), Ht. reflexivity.
Qed.

Lemma expand_icloud_cases_witness :
  Launcher.expand_icloud mac_without_chrome "~/games" = "~/games"
  /\ Launcher.expand_icloud mac_without_chrome
       "/Users/dev/Library/Mobile Documents/com~apple~CloudDocs/iCloud/game"
     = "/Users/dev/Library/Mobile Documents/com~apple~CloudDocs/iCloud/game"
  /\ Launcher.expand_icloud mac_without_chrome "~/iCloud/game"
     = "/Users/dev/iCloud/game".
Proof.
  pose proof (expand_icloud_cases mac_without_chrome "~/games") as (H1 & _).
  pose proof (expand_icloud_cases mac_without_chrome
    "/Users/dev/Library/Mobile Documents/com~apple~CloudDocs/iCloud/game")
    as (_ & H2 & _).
  pose proof (expand_icloud_cases mac_without_chrome "~/iCloud/game")
    as (_ & _ & H3).
  exact (conj (H1 eq_refl) (conj (H2 eq_refl) (H3 eq_refl eq_refl))).
Defined.

(** X3.  An empty directory argument does not reach [os.chdir]: [int]
    rejects the empty string, so it becomes [GAME_DIR], and
    [GameServer.__init__] replaces an empty directory by the working
    directory.  More generally the server the launcher builds never has
    an empty directory unless the working directory itself is empty. *)
Theorem empty_directory_argument (P : platform) (w : world) :
  (forall prog,
     int P "" = None ->
     Launcher.configure P [prog; ""] w
     = (Returned {| GameServer.port := 8000; GameServer.directory := cwd w;
                    GameServer.httpd := None |},
        {| cwd := cwd w; sigint := Signal_handler; events := events w |}))
  /\ (forall argv server w1,
        Launcher.configure P argv w = (Returned server, w1) ->
        cwd w <> "" -> GameServer.directory server <> "").
Proof.
  split.
  - intros prog Hi.
    unfold Launcher.configure, bind, signal_signal, getcwd, GameServer.init, ret.
    cbn [cwd sigint events Launcher.parse_args]. rewrite Hi. reflexivity.
  - intros argv server w1 Hc Hne.
    destruct (configure_world P argv w server w1 Hc)
      as (_ & _ & port & dir & _ & _ & ->).
    destruct (Str.truthy _) eqn:Ht; [now apply truthy_iff | exact Hne].
Qed.

Lemma empty_directory_argument_witness :
  Launcher.configure mac_without_chrome ["server.py"; ""] shell
  = (Returned {| GameServer.port := 8000;
                 GameServer.directory := "/Users/dev/game";
                 GameServer.httpd := None |},
     {| cwd := "/Users/dev/game"; sigint := Signal_handler; events := [] |}).
Proof.
  exact (proj1 (empty_directory_argument mac_without_chrome shell)
           "server.py" eq_refl).
Defined.

(** ** [start], continued *)

(** X6.  [start] has no way out of the accept loop of its own: when no
    signal arrives it never returns, and the launcher never exits. *)
Theorem start_never_returns_unprompted (P : platform) (self : GameServer.t)
        (w : world) (d' : string) :
  chdir P (cwd w) (GameServer.directory self) = Some d' ->
  bindable P (GameServer.port self) = true ->
  sigint_while_serving P = false ->
  fst (GameServer.start P (self, w)) = Blocked
  /\ forall argv w0,
       Launcher.configure P argv w0 = (Returned self, w) ->
       fst (Launcher.python P argv w0) = Launcher.Running.
Proof.
  intros Hc Hb Hs. split.
  - now rewrite (start_serves_forever P self w d' Hc Hb Hs).
  - intros argv w0 Hconf. rewrite (python_of_start P argv w0 self w Hconf).
    now rewrite (start_serves_forever P self w d' Hc Hb Hs).
Qed.

Lemma start_never_returns_unprompted_witness :
  fst (GameServer.start quiet_mac (game_server, shell)) = Blocked.
Proof.
  refine (proj1 (start_never_returns_unprompted quiet_mac game_server
                   shell "/srv/game" _ _ _)); vm_compute; reflexivity.
Defined.

(** X7.  Under Python's default SIGINT handler (a [GameServer] used
    without the launcher), Ctrl+C while serving raises
    [KeyboardInterrupt], which [start] catches: it calls [stop], which
    prints its two lines around the closing of the socket, and [start]
    returns normally with the loop ended and the socket closed. *)
Theorem start_keyboard_interrupt_stops (P : platform) (self : GameServer.t)
        (w : world) (d' : string) :
  chdir P (cwd w) (GameServer.directory self) = Some d' ->
  bindable P (GameServer.port self) = true ->
  sigint_while_serving P = true ->
  sigint w = Default_int_handler ->
  exists s,
    GameServer.start P (self, w)
    = (Returned tt,
       (with_httpd self s,
        after w d'
          (startup P self
           ++ [Serve (GameServer.port self); Print stopping_line;
               Close (GameServer.port self); Print stopped_line])))
    /\ TCPServer.socket_open s = false
    /\ TCPServer.is_shut_down s = true
    /\ TCPServer.loop_running s = false.
Proof.
  intros Hc Hb Hs Hh. eexists. split.
  - exact (start_keyboard_interrupt P self w d' Hc Hb Hs Hh).
  - now cbn.
Qed.

Lemma start_keyboard_interrupt_stops_witness :
  fst (GameServer.start mac_without_chrome (game_server, library_world))
  = Returned tt.
Proof.
  destruct (start_keyboard_interrupt_stops mac_without_chrome game_server
              library_world "/srv/game") as (s & Hrun & _);
    [vm_compute; reflexivity | vm_compute; reflexivity
    | vm_compute; reflexivity | vm_compute; reflexivity |].
  exact (f_equal fst Hrun).
Defined.

Lemma startup_no_close (P : platform) (self : GameServer.t) (port : Z) :
  ~ In (Close port) (startup P self).
Proof.
  unfold startup, banner, launch_attempts. intros Hin.
  destruct (run P (open_chrome self)); [|destruct (run P (open_firefox self))];
    cbn in Hin; intuition discriminate.
Qed.

(** X8.  Under the launcher the [except KeyboardInterrupt] clause of
    [start] is never entered: SIGINT leaves [start] as [SystemExit(0)],
    [stop] is not called, its lines are not printed and the listening
    socket is still open when the interpreter exits. *)
Theorem launcher_interrupt_skips_stop (P : platform) (argv : list string)
        (w0 w : world) (server : GameServer.t) (d' : string) :
  Launcher.configure P argv w0 = (Returned server, w) ->
  chdir P (cwd w) (GameServer.directory server) = Some d' ->
  bindable P (GameServer.port server) = true ->
  sigint_while_serving P = true ->
  exists s more w',
    GameServer.start P (server, w)
    = (Raised (SystemExit 0), (with_httpd server s, w'))
    /\ TCPServer.socket_open s = true
    /\ events w' = (events w ++ more)%list
    /\ (forall port, ~ In (Close port) more)
    /\ ~ In (Print stopping_line) more.
Proof.
  intros Hconf Hc Hb Hs.
  assert (Hh : sigint w = Signal_handler).
  { destruct (configure_world P argv w0 server w Hconf) as (-> & _). reflexivity. }
  eexists. eexists. eexists. split.
  - exact (start_interrupted P server w d' Hc Hb Hs Hh).
  - split; [reflexivity|]. split; [apply events_after|]. split.
    + intros port Hin. apply in_app_or in Hin. destruct Hin as [Hin|Hin].
      * exact (startup_no_close P server port Hin).
      * cbn in Hin. intuition discriminate.
    + intros Hin. apply in_app_or in Hin. destruct Hin as [Hin|Hin].
      * unfold startup, banner, launch_attempts in Hin.
        destruct (run P (open_chrome server));
          [|destruct (run P (open_firefox server))];
          cbn in Hin; intuition discriminate.
      * cbn in Hin. intuition discriminate.
Qed.

Lemma launcher_interrupt_skips_stop_witness :
  exists s more w',
    GameServer.start mac_without_chrome
      ({| GameServer.port := 9090; GameServer.directory := "/srv/game";
          GameServer.httpd := None |},
       {| cwd := "/Users/dev/game"; sigint := Signal_handler; events := [] |})
    = (Raised (SystemExit 0),
       (with_httpd {| GameServer.port := 9090;
                      GameServer.directory := "/srv/game";
                      GameServer.httpd := None |} s, w'))
    /\ TCPServer.socket_open s = true
    /\ events w' = ([] ++ more)%list
    /\ (forall port, ~ In (Close port) more)
    /\ ~ In (Print stopping_line) more.
Proof.
  refine (launcher_interrupt_skips_stop mac_without_chrome
            ["server.py"; "/srv/game"; "9090"] shell _ _ "/srv/game" _ _ _ _);
    vm_compute; reflexivity.
Defined.

Lemma init_out_of_range (P : platform) (port : Z) (w : world) :
  (port < 0 \/ 65535 < port)%Z ->
  TCPServer.init P port w = (Raised OverflowError, w).
Proof.
  intros Hp. unfold TCPServer.init.
  replace ((0 <=? port)%Z && (port <=? 65535)%Z) with false; [reflexivity|].
  symmetry. apply andb_false_iff.
  destruct Hp as [Hp|Hp]; [left | right]; apply Z.leb_gt; lia.
Qed.

(** X9.  The parser accepts any integer as a port; a port outside
    0..65535 fails only in [start], after the directory change, with
    [OverflowError] from the bind, whether or not such a port is free. *)
Theorem port_out_of_range (P : platform) (self : GameServer.t) (w : world)
        (d' : string) :
  chdir P (cwd w) (GameServer.directory self) = Some d' ->
  (GameServer.port self < 0 \/ 65535 < GameServer.port self)%Z ->
  GameServer.start P (self, w)
  = (Raised OverflowError,
     (self, after w d' [Chdir (GameServer.directory self)])).
Proof.
  intros Hc Hp. unfold GameServer.start.
  erewrite bind_returned by reflexivity.
  erewrite bind_returned by (apply lift_run, os_chdir_ok, Hc).
  apply bind_raised. apply lift_run. now apply init_out_of_range.
Qed.

Lemma port_out_of_range_witness :
  Launcher.python mac_without_chrome ["server.py"; "70000"] shell
  = (Launcher.Exit 1,
     {| cwd := "/Users/dev/game"; sigint := Signal_handler;
        events := [Chdir "/Users/dev/game"; Traceback OverflowError] |}).
Proof.
  rewrite (python_of_start mac_without_chrome ["server.py"; "70000"] shell
             {| GameServer.port := 70000; GameServer.directory := "/Users/dev/game";
                GameServer.httpd := None |}
             {| cwd := "/Users/dev/game"; sigint := Signal_handler; events := [] |})
    by (vm_compute; reflexivity).
  rewrite (port_out_of_range mac_without_chrome _ _ "/Users/dev/game")
    by (vm_compute; first [reflexivity | right; reflexivity]).
  reflexivity.
Defined.

(** ** The handler, continued *)

(** X10.  For an HTTP/0.9 request the overriding [end_headers] does
    nothing at all: no header is buffered, nothing is written, the
    handler is unchanged. *)
Theorem end_headers_http09 (h : handler) :
  request_version h = "HTTP/0.9" ->
  GameHTTPRequestHandler.end_headers h = h.
Proof.
  intros Hv.
  assert (Hs : forall k v, BaseHTTPRequestHandler.send_header h k v = h).
  { intros k v. unfold BaseHTTPRequestHandler.send_header,
      BaseHTTPRequestHandler.is_http09. now rewrite Hv. }
  unfold GameHTTPRequestHandler.end_headers. rewrite !Hs.
  unfold BaseHTTPRequestHandler.end_headers, BaseHTTPRequestHandler.is_http09.
  now rewrite Hv.
Qed.

Lemma end_headers_http09_witness :
  GameHTTPRequestHandler.end_headers
    (new_request "HTTP/0.9" "GET" "/index.html" "/srv/game")
  = new_request "HTTP/0.9" "GET" "/index.html" "/srv/game".
Proof.
  exact (end_headers_http09
           (new_request "HTTP/0.9" "GET" "/index.html" "/srv/game") eq_refl).
Defined.

Section FileResponse.
Variable H : host.




End FileResponse.




